(** * convert.py: Mozc dictionary to Rime dictionary conversion

    A shallow embedding of [src/convert.py] and the properties of its
    transliteration engine, its aggregation loop and its output writer.

    Python strings are sequences of Unicode code points, modelled as
    [list N]; Python integers are modelled as [Z]. Exceptions are values
    of [exn]; code that may raise returns a [result]. The third-party
    libraries (jaconv, pykakasi), [str.lower], [glob.glob],
    [os.path.join], the resolution of a path to the file it names and the
    clock are parameters of the development. *)

From Stdlib Require Import List ZArith NArith ZifyN Ascii Lia Permutation Sorted.
From stdpp Require Import base option list gmap strings.

Local Open Scope N_scope.

(** ** Strings *)

Abbreviation str := (list N).

(** An ASCII literal as a sequence of code points. *)
Definition of_string (s : String.string) : str :=
  map N_of_ascii (String.list_ascii_of_string s).

Definition TAB : N := 9.
Definition LF : N := 10.
Definition CR : N := 13.
Definition QUOTE : N := 34.
Definition HASH : N := 35.

(** Truthiness of a string: [if s] holds for the non-empty ones. *)
Definition truthy {A} (s : list A) : bool :=
  match s with [] => false | _ :: _ => true end.

(** ** Exceptions *)

Inductive exn : Type :=
| FileNotFoundError
| IsADirectoryError
| PermissionError
| OSError
| IndexError
| KeyError
| OtherException
| KeyboardInterrupt
| SystemExit
| GeneratorExit.

(** [isinstance(e, Exception)]: the last three derive from
    [BaseException] only, and [except Exception] does not catch them. *)
Definition is_Exception (e : exn) : bool :=
  match e with
  | KeyboardInterrupt | SystemExit | GeneratorExit => false
  | _ => true
  end.

Inductive result (A : Type) : Type :=
| Ok (a : A)
| Raise (e : exn).
Arguments Ok {A} a.
Arguments Raise {A} e.

Definition rbind {A B} (m : result A) (k : A -> result B) : result B :=
  match m with Ok a => k a | Raise e => Raise e end.

Fixpoint rmap_list {A B} (f : A -> result B) (l : list A) : result (list B) :=
  match l with
  | [] => Ok []
  | a :: l' => rbind (f a) (fun b => rbind (rmap_list f l') (fun bs => Ok (b :: bs)))
  end.

(** ** The parts of the Python runtime the program uses *)

Module Py.

(** [str.isspace] on one code point; it is also the class [\s] of [re]
    on [str] patterns. *)
Definition isspace (c : N) : bool :=
  ((0x09 <=? c) && (c <=? 0x0D)) || ((0x1C <=? c) && (c <=? 0x20))
  || (c =? 0x85) || (c =? 0xA0) || (c =? 0x1680)
  || ((0x2000 <=? c) && (c <=? 0x200A))
  || (c =? 0x2028) || (c =? 0x2029) || (c =? 0x202F) || (c =? 0x205F)
  || (c =? 0x3000).

Fixpoint lstrip (s : str) : str :=
  match s with
  | [] => []
  | c :: s' => if isspace c then lstrip s' else s
  end.

Definition rstrip (s : str) : str := rev (lstrip (rev s)).

(** [s.strip()] *)
Definition strip (s : str) : str := rstrip (lstrip s).

(** [s.startswith(p)] *)
Fixpoint startswith (s p : str) : bool :=
  match p, s with
  | [], _ => true
  | _ :: _, [] => false
  | b :: p', a :: s' => (a =? b) && startswith s' p'
  end.

(** [s.split(sep)] for a separator of one character: every occurrence
    cuts, and the result has at least one element. *)
Fixpoint split (sep : N) (s : str) : list str :=
  match s with
  | [] => [[]]
  | c :: s' =>
      if c =? sep then [] :: split sep s'
      else match split sep s' with
           | [] => [[c]]
           | p :: ps => (c :: p) :: ps
           end
  end.

(** [s.replace(a, b)] for single characters [a] and [b]. *)
Definition replace (a b : N) (s : str) : str :=
  map (fun c => if c =? a then b else c) s.

(** [l[i]] for a non-negative literal index. *)
Definition index {A} (l : list A) (i : nat) : result A :=
  match nth_error l i with
  | Some a => Ok a
  | None => Raise IndexError
  end.

(** A character class of [re]: a union of inclusive code point ranges. *)
Definition charclass := list (N * N).

Definition in_class (cls : charclass) (c : N) : bool :=
  existsb (fun r => (fst r <=? c) && (c <=? snd r)) cls.

(** [re.compile('^[cls]+$').fullmatch(s)] as a truth value. *)
Definition fullmatch_plus (cls : charclass) (s : str) : bool :=
  truthy s && forallb (in_class cls) s.

(** [re.compile('[cls]').search(s) is not None] *)
Definition search_class (cls : charclass) (s : str) : bool :=
  existsb (in_class cls) s.

(** [re.sub('[^cls]', '', s)] *)
Definition sub_not_class (cls : charclass) (s : str) : str :=
  List.filter (in_class cls) s.

(** [re.sub('\s+', '', s)] *)
Definition sub_spaces (s : str) : str :=
  List.filter (fun c => negb (isspace c)) s.

(** Text mode with universal newlines: [\r\n] and [\r] are read as [\n]. *)
Fixpoint translate_newlines (s : str) : str :=
  match s with
  | [] => []
  | c :: s' =>
      if c =? CR then
        match s' with
        | c' :: s'' =>
            if c' =? LF then LF :: translate_newlines s''
            else LF :: translate_newlines s'
        | [] => [LF]
        end
      else c :: translate_newlines s'
  end.

(** The lines a text yields when iterated: each keeps its final [\n]. *)
Fixpoint iter_lines (s : str) : list str :=
  match s with
  | [] => []
  | c :: s' =>
      if c =? LF then [LF] :: iter_lines s'
      else match iter_lines s' with
           | [] => [[c]]
           | l :: ls => (c :: l) :: ls
           end
  end.

Definition readlines (text : str) : list str :=
  iter_lines (translate_newlines text).

(** Lexicographic order on strings by code point, as [<=] on [str]. *)
Fixpoint str_le (a b : str) : bool :=
  match a, b with
  | [], _ => true
  | _ :: _, [] => false
  | x :: a', y :: b' => (x <? y) || ((x =? y) && str_le a' b')
  end.

Fixpoint insert_sorted (x : str) (l : list str) : list str :=
  match l with
  | [] => [x]
  | y :: l' => if str_le x y then x :: l else y :: insert_sorted x l'
  end.

(** [sorted(l)] on a list of strings. *)
Fixpoint sorted (l : list str) : list str :=
  match l with
  | [] => []
  | x :: l' => insert_sorted x (sorted l')
  end.

End Py.

(** ** Script classifier *)

(** [ASCII_RE = re.compile(r'^[a-z0-9]+$')] *)
Definition ASCII_CLASS : Py.charclass := [(97, 122); (48, 57)].
(** [JP_CHAR_RE = re.compile(r'[\u3040-\u30FF\u4E00-\u9FFF]')]: kana or kanji *)
Definition JP_CHAR_CLASS : Py.charclass := [(0x3040, 0x30FF); (0x4E00, 0x9FFF)].

Definition is_ascii_romaji (s : str) : bool := Py.fullmatch_plus ASCII_CLASS s.

Definition has_japanese (word : str) : bool := Py.search_class JP_CHAR_CLASS word.

(** ** Transliteration engine *)

(** The object [kakasi()] returns, seen through its [convert] method: a
    list of dictionaries, or an exception. *)
Definition kakasi := str -> result (list (gmap string str)).

Section Engine.

(** [jaconv.hira2kata], [jaconv.kana2alphabet] and [str.lower]. *)
Variable hira2kata : str -> str.
Variable kana2alphabet : str -> str.
Variable lower : str -> str.
(** The module-level [_k = kakasi()]; [None] when the import or the
    constructor raised. *)
Variable _k : option kakasi.

Definition pykakasi_convert_body (k : kakasi) (text : str) : result str :=
  rbind (k text) (fun items =>
  rbind (rmap_list (fun item : gmap string str =>
                      match item !! "hepburn"%string with
                      | Some h => Ok h
                      | None => Raise KeyError
                      end) items) (fun hs =>
  Ok (concat hs))).

Definition HAS_PYKAKASI : bool :=
  match _k with Some _ => true | None => false end.

Definition pykakasi_convert : option (str -> result str) :=
  match _k with Some k => Some (pykakasi_convert_body k) | None => None end.

(** The katakana form of a reading (step 2). *)
Definition r_kata_of (reading : str) : str :=
  Py.replace 0x3094 0x30F4 (hira2kata reading).

(** The primary clean candidate (steps 3 and 4). *)
Definition romaji_clean_of (reading : str) : str :=
  let romaji := lower (kana2alphabet (r_kata_of reading)) in
  let romaji := Py.sub_spaces romaji in
  Py.sub_not_class ASCII_CLASS romaji.

(** What the body of the [try] computes from the backend's answer. *)
Definition r_py_clean_of (f : str -> result str) (r_kata : str) : result str :=
  rbind (f r_kata) (fun r_py =>
  let r_py := lower (Py.sub_spaces r_py) in
  Ok (Py.sub_not_class ASCII_CLASS r_py)).

(** [convert_reading_to_romaji], returning next to its result the
    arguments of the calls it made to [pykakasi_convert]. The handler
    [except Exception: pass] catches what derives from [Exception]; any
    other exception of the backend leaves the function. *)
Definition convert_reading_to_romaji_calls (reading : str)
  : result str * list str :=
  if negb (truthy reading) then (Ok [], []) else
  let r_kata := r_kata_of reading in
  let romaji_clean := romaji_clean_of reading in
  if is_ascii_romaji romaji_clean then (Ok romaji_clean, []) else
  match (if HAS_PYKAKASI then pykakasi_convert else None) with
  | Some f =>
      match r_py_clean_of f r_kata with
      | Ok r_py_clean =>
          if truthy r_py_clean then (Ok r_py_clean, [r_kata])
          else (Ok romaji_clean, [r_kata])
      | Raise e =>
          if is_Exception e then (Ok romaji_clean, [r_kata])
          else (Raise e, [r_kata])
      end
  | None => (Ok romaji_clean, [])
  end.

Definition convert_reading_to_romaji (reading : str) : result str :=
  fst (convert_reading_to_romaji_calls reading).

End Engine.

(** ** Aggregator state *)

(** The dictionary [stats], whose four keys are fixed. *)
Record Stats : Type := mkStats {
  processed_lines : Z;
  converted : Z;
  skipped : Z;
  filtered_nonjp : Z
}.

(** The accumulators of one run: the lists [results] and [skipped] (here
    [skipped_entries]) and [stats]. *)
Record Acc : Type := mkAcc {
  results : list (str * str);
  skipped_entries : list (str * str * str);
  stats : Stats
}.

Definition on_stats (f : Stats -> Stats) (a : Acc) : Acc :=
  mkAcc (results a) (skipped_entries a) (f (stats a)).

Definition incr_processed_lines : Acc -> Acc :=
  on_stats (fun s => mkStats (processed_lines s + 1) (converted s)
                             (skipped s) (filtered_nonjp s)).
Definition incr_converted : Acc -> Acc :=
  on_stats (fun s => mkStats (processed_lines s) (converted s + 1)
                             (skipped s) (filtered_nonjp s)).
Definition incr_skipped : Acc -> Acc :=
  on_stats (fun s => mkStats (processed_lines s) (converted s)
                             (skipped s + 1) (filtered_nonjp s)).
Definition incr_filtered_nonjp : Acc -> Acc :=
  on_stats (fun s => mkStats (processed_lines s) (converted s)
                             (skipped s) (filtered_nonjp s + 1)).

Definition append_result (e : str * str) (a : Acc) : Acc :=
  mkAcc (results a ++ [e]) (skipped_entries a) (stats a).
Definition append_skipped (e : str * str * str) (a : Acc) : Acc :=
  mkAcc (results a) (skipped_entries a ++ [e]) (stats a).

Definition init_acc : Acc := mkAcc [] [] (mkStats 0 0 0 0).

(** The accumulators together with every value they had before, newest
    first. The program never reads [past]: it records the points of the
    pass for the invariants. *)
Record World : Type := mkWorld {
  cur : Acc;
  past : list Acc
}.

Definition init_world : World := mkWorld init_acc [].

(** ** State and exception monad of the aggregation loop *)

Definition M (A : Type) : Type := World -> result A * World.

Definition ret {A} (a : A) : M A := fun w => (Ok a, w).
Definition raise {A} (e : exn) : M A := fun w => (Raise e, w).
Definition bind {A B} (m : M A) (k : A -> M B) : M B :=
  fun w => match m w with
           | (Ok a, w') => k a w'
           | (Raise e, w') => (Raise e, w')
           end.
Definition lift {A} (r : result A) : M A :=
  match r with Ok a => ret a | Raise e => raise e end.
(** One assignment to the accumulators. *)
Definition modify (f : Acc -> Acc) : M unit :=
  fun w => (Ok tt, mkWorld (f (cur w)) (cur w :: past w)).

Declare Scope agg_scope.
Delimit Scope agg_scope with agg.
Notation "x <- m ;; k" := (bind m (fun x => k))
  (at level 100, m at next level, right associativity) : agg_scope.
Notation "m ;;; k" := (bind m (fun _ => k))
  (at level 100, right associativity) : agg_scope.

(** The third component of a skipped entry, a literal of the source. *)
Definition REASON : str :=
  [0x65E0; 0x6CD5; 0x751F; 0x6210] ++ of_string "ASCII romaji".

Definition SKIPPED_TSV : str := of_string "skipped.tsv".

(** ** Aggregator *)

Section Aggregator.

Variable hira2kata : str -> str.
Variable kana2alphabet : str -> str.
Variable lower : str -> str.
Variable _k : option kakasi.

Local Open Scope agg_scope.

(** What the loop body does with [reading] and [word] once they are
    extracted (from [if not word] to the end of the body). *)
Definition process_record (reading word : str) : M unit :=
  if negb (truthy word) then ret tt else
  if negb (has_japanese word) then modify incr_filtered_nonjp else
  romaji <- lift (convert_reading_to_romaji hira2kata kana2alphabet lower _k reading) ;;
  if negb (truthy romaji) then
    modify incr_skipped ;;;
    modify (append_skipped (word, reading, REASON))
  else
    modify (append_result (word, romaji)) ;;;
    modify incr_converted.

(** The body of [for line in fin]. *)
Definition process_line (line : str) : M unit :=
  modify incr_processed_lines ;;;
  let line := Py.strip line in
  if negb (truthy line) || Py.startswith line [HASH] then ret tt else
  let parts := Py.split TAB line in
  if (length parts <? 2)%nat then ret tt else
  reading <- lift (Py.index parts 0) ;;
  let reading := Py.strip reading in
  word <- lift (Py.index parts 4) ;;
  let word := Py.strip word in
  process_record reading word.

Fixpoint process_lines (lines : list str) : M unit :=
  match lines with
  | [] => ret tt
  | line :: rest => process_line line ;;; process_lines rest
  end.

End Aggregator.

(** ** File system, clock and the run *)

(** What a name of the file system stands for: the decoded text it
    holds, and what [open] raises on it, if it raises, in mode ["r"] and
    in mode ["w"]. A directory raises [IsADirectoryError] in both modes,
    a name in a directory that does not exist [FileNotFoundError] in
    both, a file the user may not read or may not write
    [PermissionError] in that mode. *)
Record node : Type := mkNode {
  node_text : str;
  read_error : option exn;
  write_error : option exn
}.

(** A regular file that can be read and written. *)
Definition File (text : str) : node := mkNode text None None.

(** A name on which [open] raises [e] in both modes. *)
Definition Blocked (e : exn) : node := mkNode [] (Some e) (Some e).

(** The file system: the nodes by resolved name. A name that is not a
    key names nothing (a file that was removed, a link to nothing):
    opening it to read raises [FileNotFoundError], opening it to write
    creates the file. Once a file is open, reading it and writing to it
    are taken not to fail. *)
Abbreviation FS := (gmap (list N) node).

(** [datetime.today()], as far as [strftime] reads it. *)
Record date : Type := mkDate { year : N; month : N; day : N }.

Definition digit (n : N) : N := 48 + n mod 10.
Definition pad2 (n : N) : str := [digit (n / 10); digit n].
Definition pad4 (n : N) : str :=
  [digit (n / 1000); digit (n / 100); digit (n / 10); digit n].

(** [d.strftime("%Y.%m.%d")], for the years of four digits. *)
Definition strftime_Ymd (d : date) : str :=
  pad4 (year d) ++ [46] ++ pad2 (month d) ++ [46] ++ pad2 (day d).

(** The f-string of [header]. *)
Definition header (dict_name today : str) : str :=
  of_string "# Rime dictionary converted from Mozc" ++ [LF] ++
  of_string "# encoding: utf-8" ++ [LF] ++
  of_string "---" ++ [LF] ++
  of_string "name: " ++ dict_name ++ [LF] ++
  of_string "version: " ++ [QUOTE] ++ today ++ [QUOTE] ++ [LF] ++
  of_string "sort: by_weight" ++ [LF] ++
  of_string "columns:" ++ [LF] ++
  of_string "  - text" ++ [LF] ++
  of_string "  - code" ++ [LF] ++
  of_string "..." ++ [LF] ++ [LF].

(** [f"{word}\t{romaji}\n"] *)
Definition entry_line (e : str * str) : str :=
  fst e ++ [TAB] ++ snd e ++ [LF].

(** [f"{word}\t{reading}\t{reason}\n"] *)
Definition skipped_line (e : str * str * str) : str :=
  fst (fst e) ++ [TAB] ++ snd (fst e) ++ [TAB] ++ snd e ++ [LF].

Section Run.

Variable hira2kata : str -> str.
Variable kana2alphabet : str -> str.
Variable lower : str -> str.
Variable _k : option kakasi.
(** The file a path names: two spellings of one file ([skipped.tsv],
    [./skipped.tsv]) resolve to the same name. *)
Variable realpath : str -> str.
(** [glob.glob]: the paths that match a pattern. *)
Variable glob_glob : FS -> str -> list str.
Variable os_path_join : str -> str -> str.
Variable today : date.

Local Open Scope agg_scope.

(** [open(path, "r", ...)]: the text of the file, or the exception. *)
Definition open_read (fs : FS) (path : str) : result str :=
  match fs !! realpath path with
  | Some n =>
      match read_error n with
      | Some e => Raise e
      | None => Ok (node_text n)
      end
  | None => Raise FileNotFoundError
  end.

(** [open(path, "w")] followed by the writes of [chunks]: when [open]
    does not raise, the file is created, or truncated, and holds what
    was written. *)
Definition write_file (path : str) (chunks : list str) (fs : FS) : result FS :=
  match fs !! realpath path with
  | Some n =>
      match write_error n with
      | Some e => Raise e
      | None =>
          Ok (<[realpath path := mkNode (concat chunks) (read_error n) None]> fs)
      end
  | None => Ok (<[realpath path := File (concat chunks)]> fs)
  end.

(** The text a path holds, when it names something. *)
Definition file_text (fs : FS) (path : str) : option str :=
  node_text <$> fs !! realpath path.

(** [with open(fp, "r", ...) as fin: for line in fin: ...] *)
Definition process_file (fs : FS) (fp : str) : M unit :=
  match open_read fs fp with
  | Raise e => raise e
  | Ok text =>
      process_lines hira2kata kana2alphabet lower _k (Py.readlines text)
  end.

(** [for fp in files: ...] *)
Fixpoint process_files (fs : FS) (files : list str) : M unit :=
  match files with
  | [] => ret tt
  | fp :: rest => process_file fs fp ;;; process_files fs rest
  end.

(** The aggregation pass of [mozc_to_rime]: from the glob to the end
    of the loops, with the accumulators as they are when it ends or
    raises. *)
Definition aggregate (mozc_dir pattern : str) (fs : FS) : result unit * World :=
  let files := Py.sorted (glob_glob fs (os_path_join mozc_dir pattern)) in
  if negb (truthy files) then (Raise FileNotFoundError, init_world)
  else process_files fs files init_world.

Definition mozc_to_rime (mozc_dir pattern dict_name output_file : str) (fs : FS)
  : result (Stats * Z * str) * FS :=
  match aggregate mozc_dir pattern fs with
  | (Raise e, _) => (Raise e, fs)
  | (Ok _, w) =>
      let today := strftime_Ymd today in
      match write_file output_file
              (header dict_name today :: map entry_line (results (cur w))) fs with
      | Raise e => (Raise e, fs)
      | Ok fs1 =>
          match write_file SKIPPED_TSV
                  (map skipped_line (skipped_entries (cur w))) fs1 with
          | Raise e => (Raise e, fs1)
          | Ok fs2 =>
              (Ok (stats (cur w), Z.of_nat (length (results (cur w))), SKIPPED_TSV),
               fs2)
          end
      end
  end.

End Run.

(** ** Reading the loop body as a case analysis *)

(** What one physical line amounts to. *)
Inductive verdict : Type :=
| Ignored                             (* blank, comment, one field, empty headword *)
| Crashed                             (* [parts[4]] is out of range *)
| Aborted (e : exn)                   (* the engine let [e] through *)
| Filtered                            (* headword without kana or kanji *)
| Skipped (word reading : str)        (* no key derived *)
| Converted (word romaji : str).

Section Verdicts.

Variable hira2kata : str -> str.
Variable kana2alphabet : str -> str.
Variable lower : str -> str.
Variable _k : option kakasi.

Definition classify_record (reading word : str) : verdict :=
  if negb (truthy word) then Ignored
  else if negb (has_japanese word) then Filtered
  else
    match convert_reading_to_romaji hira2kata kana2alphabet lower _k reading with
    | Raise e => Aborted e
    | Ok romaji =>
        if negb (truthy romaji) then Skipped word reading else Converted word romaji
    end.

Definition classify (line : str) : verdict :=
  let line := Py.strip line in
  if negb (truthy line) || Py.startswith line [HASH] then Ignored else
  let parts := Py.split TAB line in
  if (length parts <? 2)%nat then Ignored else
  match nth_error parts 0, nth_error parts 4 with
  | Some reading, Some word => classify_record (Py.strip reading) (Py.strip word)
  | _, _ => Crashed
  end.

(** The entry a line contributes to [results], if any. *)
Definition entry_of_line (line : str) : list (str * str) :=
  match classify line with
  | Converted word romaji => [(word, romaji)]
  | _ => []
  end.

(** The entry a line contributes to the skipped list, if any. *)
Definition skipped_of_line (line : str) : list (str * str * str) :=
  match classify line with
  | Skipped word reading => [(word, reading, REASON)]
  | _ => []
  end.

End Verdicts.

(** The lines of a file of the file system (none when it cannot be read). *)
Definition file_lines (realpath : str -> str) (fs : FS) (fp : str) : list str :=
  match open_read realpath fs fp with
  | Ok text => Py.readlines text
  | Raise _ => []
  end.

(** The world after one more assignment. *)
Definition push (f : Acc -> Acc) (w : World) : World :=
  mkWorld (f (cur w)) (cur w :: past w).

(** The assignments the loop body makes for a record with a given
    verdict. *)
Definition record_effect (v : verdict) (w : World) : World :=
  match v with
  | Ignored | Crashed | Aborted _ => w
  | Filtered => push incr_filtered_nonjp w
  | Skipped word reading =>
      push (append_skipped (word, reading, REASON)) (push incr_skipped w)
  | Converted word romaji =>
      push incr_converted (push (append_result (word, romaji)) w)
  end.

(** How the loop body ends on a line with a given verdict. *)
Definition verdict_outcome (v : verdict) : result unit :=
  match v with
  | Crashed => Raise IndexError
  | Aborted e => Raise e
  | _ => Ok tt
  end.

(** The effect of a line with a given verdict on the world. *)
Definition apply_verdict (v : verdict) (w : World) : result unit * World :=
  (verdict_outcome v, record_effect v (push incr_processed_lines w)).

(** ** Invariants of the counters *)

Local Open Scope Z_scope.

Definition counters_bounded (a : Acc) : Prop :=
  converted (stats a) + skipped (stats a) + filtered_nonjp (stats a)
  <= processed_lines (stats a).

(** No counter of [a] is below its value in [b]. *)
Definition not_below (a b : Acc) : Prop :=
  processed_lines (stats b) <= processed_lines (stats a) /\
  converted (stats b) <= converted (stats a) /\
  skipped (stats b) <= skipped (stats a) /\
  filtered_nonjp (stats b) <= filtered_nonjp (stats a).

(** Every point of the pass, newest first. *)
Definition points (w : World) : list Acc := cur w :: past w.

Definition pass_ok (w : World) : Prop :=
  Forall counters_bounded (points w) /\ StronglySorted not_below (points w).

Local Close Scope Z_scope.

(** ** Instances of the parameters used on concrete inputs *)

(** [str.lower] on ASCII text. *)
Definition ascii_lower (s : str) : str :=
  map (fun c => if (65 <=? c) && (c <=? 90) then c + 32 else c) s.

(** jaconv on text without kana, which it leaves as it is. *)
Definition no_kana (s : str) : str := s.

(** A backend whose every call raises. *)
Definition failing_kakasi : kakasi := fun _ => Raise OtherException.

(** A backend whose every call is interrupted from the keyboard. *)
Definition interrupted_kakasi : kakasi := fun _ => Raise KeyboardInterrupt.

(** [os.path.join] on POSIX, for a relative second argument and a first
    one that does not end in a slash. *)
Definition posix_join (d p : str) : str := d ++ [47] ++ p.

(** The characters of a key: [a-z] and [0-9]. *)
Definition key_char (c : N) : Prop := 97 <= c <= 122 \/ 48 <= c <= 57.

(** The backend gives no key for [r_kata]: its call raises an exception
    that derives from [Exception], or what it returns is empty once
    lowercased and cleaned. *)
Definition backend_fails (lower : str -> str) (k : kakasi) (r_kata : str) : Prop :=
  (exists e, pykakasi_convert_body k r_kata = Raise e /\ is_Exception e = true) \/
  (exists r_py, pykakasi_convert_body k r_kata = Ok r_py /\
                Py.sub_not_class ASCII_CLASS (lower (Py.sub_spaces r_py)) = []).

(** Whatever the backend raises derives from [Exception]. *)
Definition raises_only_Exception (_k : option kakasi) : Prop :=
  forall (k : kakasi) (text : str) (e : exn),
    _k = Some k -> k text = Raise e -> is_Exception e = true.

(** The entries and the skipped entries of a sequence of files, file by
    file and, within a file, line by line. *)
Definition entries_of_files (hira2kata kana2alphabet lower : str -> str)
    (_k : option kakasi) (realpath : str -> str) (fs : FS) (files : list str)
  : list (str * str) :=
  flat_map (fun fp => flat_map (entry_of_line hira2kata kana2alphabet lower _k)
                               (file_lines realpath fs fp)) files.

Definition skipped_of_files (hira2kata kana2alphabet lower : str -> str)
    (_k : option kakasi) (realpath : str -> str) (fs : FS) (files : list str)
  : list (str * str * str) :=
  flat_map (fun fp => flat_map (skipped_of_line hira2kata kana2alphabet lower _k)
                               (file_lines realpath fs fp)) files.

(** ** Sample inputs *)

(** A record of a Mozc dictionary: reading, two ids, cost, headword. *)
Definition record_line (reading word : str) : str :=
  reading ++ [TAB] ++ of_string "1" ++ [TAB] ++ of_string "1" ++ [TAB]
  ++ of_string "100" ++ [TAB] ++ word ++ [LF].

(** The headword U+5B66 U+6821 with a reading already in Latin letters. *)
Definition gakkou_line : str := record_line (of_string "gakkou") [0x5B66; 0x6821].
(** The headword U+5B66 with the reading [!], from which no key derives. *)
Definition bang_line : str := record_line [0x21] [0x5B66].
Definition wifi_line : str := record_line (of_string "wifi") (of_string "Wi-Fi").
(** A line of two fields. *)
Definition short_line : str := of_string "a" ++ [TAB] ++ of_string "b" ++ [LF].
(** The headword U+3005, the iteration mark, with the reading [noma]. *)
Definition iteration_mark_line : str := record_line (of_string "noma") [0x3005].
(** The same headword after an empty first field: the line starts with
    a tab. *)
Definition empty_reading_line : str := record_line [] [0x3005].

Definition sample_dir : str := of_string "d".
Definition sample_pattern : str := of_string "*.txt".
Definition sample_name : str := of_string "mozc_jp".
Definition sample_out : str := of_string "mozc_jp.dict.yaml".
Definition sample_today : date := mkDate 2026 11 6.

Definition sample_fs : FS :=
  <[of_string "d/b.txt" := File bang_line]>
  (<[of_string "d/a.txt" :=
       File (gakkou_line ++ wifi_line ++ of_string "# note" ++ [LF])]>
   (<[of_string "skipped.tsv" := File (of_string "old")]> ∅)).

(** A file system whose one input file has a line of two fields. *)
Definition short_fs : FS :=
  <[of_string "d/a.txt" := File (gakkou_line ++ short_line)]> ∅.

(** Path resolution in the working directory: a leading [./] names
    nothing more. *)
Definition sample_realpath (p : str) : str :=
  match p with
  | 46 :: 47 :: p' => p'
  | _ => p
  end.

(** A glob that matches the [.txt] files of [d], in no particular order. *)
Definition sample_glob (fs : FS) (pattern : str) : list str :=
  List.filter (fun p => match fs !! p with Some _ => true | None => false end)
              [of_string "d/b.txt"; of_string "d/a.txt"].

(** A glob over a directory whose one entry is a link to a file that
    does not exist. *)
Definition link_glob (fs : FS) (pattern : str) : list str :=
  [of_string "d/link.txt"].

(** The sample files, and an output path in a directory that does not
    exist. *)
Definition no_dir_out : str := of_string "out/mozc_jp.dict.yaml".
Definition no_dir_fs : FS := <[no_dir_out := Blocked FileNotFoundError]> sample_fs.

(** Another spelling of the path of [skipped.tsv]. *)
Definition dot_skipped : str := of_string "./skipped.tsv".

(** A backend that answers every text with the one item
    [{"hepburn": "Gakkou "}]. *)
Definition answering_kakasi : kakasi :=
  fun _ => Ok [ {[ "hepburn"%string := of_string "Gakkou " ]} ].

(** ** Whether a pass raises *)

(** The loop body raises [IndexError] on a line that is no comment and
    has at least two fields but no fifth. *)
Definition line_crashes (line : str) : bool :=
  let line := Py.strip line in
  if negb (truthy line) || Py.startswith line [HASH] then false else
  let parts := Py.split TAB line in
  if (length parts <? 2)%nat then false else
  match nth_error parts 0, nth_error parts 4 with
  | Some _, Some _ => false
  | _, _ => true
  end.

Definition file_outcome (realpath : str -> str) (fs : FS) (fp : str)
  : result unit :=
  match open_read realpath fs fp with
  | Raise e => Raise e
  | Ok text =>
      if existsb line_crashes (Py.readlines text) then Raise IndexError else Ok tt
  end.

Fixpoint files_outcome (realpath : str -> str) (fs : FS) (files : list str)
  : result unit :=
  match files with
  | [] => Ok tt
  | fp :: rest =>
      match file_outcome realpath fs fp with
      | Ok _ => files_outcome realpath fs rest
      | Raise e => Raise e
      end
  end.

(** Whether opening the two output files raises. *)
Definition writes_outcome (realpath : str -> str) (output_file : str) (fs : FS)
  : result unit :=
  match write_file realpath output_file [] fs with
  | Raise e => Raise e
  | Ok fs1 =>
      match write_file realpath SKIPPED_TSV [] fs1 with
      | Raise e => Raise e
      | Ok _ => Ok tt
      end
  end.

(** ** Further sample inputs *)

(** An indented comment line. *)
Definition comment_line : str := of_string "  # note" ++ [LF].

(** The glob of the samples, listing the same paths in the other order. *)
Definition sample_glob_rev (fs : FS) (pattern : str) : list str :=
  List.filter (fun p => match fs !! p with Some _ => true | None => false end)
              [of_string "d/a.txt"; of_string "d/b.txt"].

(** ** Well-formed entries *)

(** An entry as the pass makes them: the headword has kana or kanji, is
    stripped and has no tab; the key is not empty and made of [a-z0-9]. *)
Definition entry_ok (e : str * str) : Prop :=
  has_japanese (fst e) = true /\
  Py.strip (fst e) = fst e /\
  ~ In TAB (fst e) /\
  snd e <> [] /\
  Forall key_char (snd e).

(** The counters [converted] and [skipped] are the lengths of the two
    lists. *)
Definition tally_ok (a : Acc) : Prop :=
  converted (stats a) = Z.of_nat (length (results a)) /\
  skipped (stats a) = Z.of_nat (length (skipped_entries a)).

Definition is_converted (v : verdict) : bool :=
  match v with Converted _ _ => true | _ => false end.
Definition is_skipped (v : verdict) : bool :=
  match v with Skipped _ _ => true | _ => false end.
Definition is_filtered (v : verdict) : bool :=
  match v with Filtered => true | _ => false end.
Definition is_ignored (v : verdict) : bool :=
  match v with Ignored => true | _ => false end.

(** How many of the verdicts satisfy [p]. *)
Definition count_verdicts (p : verdict -> bool) (vs : list verdict) : Z :=
  Z.of_nat (length (List.filter p vs)).

(** The counters after lines with the verdicts [vs]. *)
Definition add_counts (vs : list verdict) (s : Stats) : Stats :=
  mkStats (processed_lines s + Z.of_nat (length vs))
          (converted s + count_verdicts is_converted vs)
          (skipped s + count_verdicts is_skipped vs)
          (filtered_nonjp s + count_verdicts is_filtered vs).

(** ** The output file as lines *)

(** A character that is no line break. *)
Definition no_line_break (c : N) : Prop := c <> LF /\ c <> CR.

Definition add_lf (body : str) : str := body ++ [LF].

(** The lines of the header, without their final newline. *)
Definition header_bodies (dict_name today : str) : list str :=
  [ of_string "# Rime dictionary converted from Mozc";
    of_string "# encoding: utf-8";
    of_string "---";
    of_string "name: " ++ dict_name;
    of_string "version: " ++ [QUOTE] ++ today ++ [QUOTE];
    of_string "sort: by_weight";
    of_string "columns:";
    of_string "  - text";
    of_string "  - code";
    of_string "...";
    [] ].

(** The shape of a line that a text yields: a body without line break,
    then a newline, which only the last line may lack. *)
Definition line_shape (line : str) : Prop :=
  exists body, (line = body ++ [LF] \/ line = body) /\ Forall no_line_break body.

(** ** The command line *)

(** [str(n)] for an integer: its digits in base ten, after a minus sign
    when it is negative. *)
Fixpoint uint_digits (u : Decimal.uint) : str :=
  match u with
  | Decimal.Nil => []
  | Decimal.D0 u => 48 :: uint_digits u
  | Decimal.D1 u => 49 :: uint_digits u
  | Decimal.D2 u => 50 :: uint_digits u
  | Decimal.D3 u => 51 :: uint_digits u
  | Decimal.D4 u => 52 :: uint_digits u
  | Decimal.D5 u => 53 :: uint_digits u
  | Decimal.D6 u => 54 :: uint_digits u
  | Decimal.D7 u => 55 :: uint_digits u
  | Decimal.D8 u => 56 :: uint_digits u
  | Decimal.D9 u => 57 :: uint_digits u
  end.

Definition str_of_int (z : Z) : str :=
  match Z.to_int z with
  | Decimal.Pos u => uint_digits u
  | Decimal.Neg u => 45 :: uint_digits u
  end.

(** The namespace [parse_args] returns. *)
Record Args : Type := mkArgs {
  args_mozc_dir : str;
  args_pattern : str;
  args_name : str;
  args_out : option str
}.

(** The defaults of the four options. *)
Definition default_args : Args :=
  mkArgs (of_string "./mozc-dict") (of_string "dictionary[0-9][0-9].txt")
         (of_string "mozc_jp") None.

(** [args.out or f"{args.name}.dict.yaml"]: [None] and the empty string
    are both false. *)
Definition out_file_of (args : Args) : str :=
  match args_out args with
  | Some o => if truthy o then o else args_name args ++ of_string ".dict.yaml"
  | None => args_name args ++ of_string ".dict.yaml"
  end.

(** The literals of the summary. *)
Definition MSG_DONE : str :=
  [0x8F6C; 0x6362; 0x5B8C; 0x6210; 0x3002].
Definition MSG_OUTPUT : str :=
  [0x8F93; 0x51FA; 0x6587; 0x4EF6; 0xFF1A].
Definition MSG_LINES : str :=
  [0x5171; 0x5904; 0x7406; 0x884C; 0x6570; 0xFF1A].
Definition MSG_CONVERTED : str :=
  [0x6210; 0x529F; 0x8F6C; 0x6362; 0xFF1A].
Definition MSG_ENTRIES : str :=
  of_string " " ++ [0x6761].
Definition MSG_TOTAL : str :=
  [0x5199; 0x5165; 0x603B; 0x6761; 0x76EE; 0xFF1A].
Definition MSG_SKIPPED : str :=
  [0x8DF3; 0x8FC7; 0xFF08; 0x65E0] ++ of_string " romaji" ++ [0xFF09; 0xFF1A].
Definition MSG_WRITTEN : str :=
  [0xFF0C; 0x5DF2; 0x5199; 0x5165] ++ of_string " ".
Definition MSG_FILTERED : str :=
  [0x8FC7; 0x6EE4; 0x975E; 0x65E5; 0x8BED; 0x8BCD; 0x6761; 0xFF1A].
Definition MSG_HINT : str :=
  [0x63D0; 0x793A; 0xFF1A; 0x672A; 0x68C0; 0x6D4B; 0x5230] ++ of_string " pykakasi"
  ++ [0xFF08; 0x53EF; 0x9009; 0xFF09; 0xFF0C; 0x5B89; 0x88C5; 0x540E; 0x53EF; 0x63D0;
      0x9AD8; 0x8F6C; 0x6362; 0x51C6; 0x786E; 0x6027; 0xFF1A]
  ++ of_string "pip install pykakasi".

Section Main.

Variable hira2kata : str -> str.
Variable kana2alphabet : str -> str.
Variable lower : str -> str.
Variable _k : option kakasi.
Variable realpath : str -> str.
Variable glob_glob : FS -> str -> list str.
Variable os_path_join : str -> str -> str.
Variable today : date.

(** [main], from the parsed arguments on: the outcome, the file system
    it leaves and what each call to [print] wrote, in order and without
    the final newline. *)
Definition main (args : Args) (fs : FS) : result unit * FS * list str :=
  let out_file := out_file_of args in
  match mozc_to_rime hira2kata kana2alphabet lower _k realpath glob_glob os_path_join
          today (args_mozc_dir args) (args_pattern args) (args_name args) out_file fs
  with
  | (Raise e, fs') => (Raise e, fs', [])
  | (Ok (stats, total, skipped_file), fs') =>
      (Ok tt, fs',
       [ MSG_DONE;
         MSG_OUTPUT ++ of_string " " ++ out_file;
         MSG_LINES ++ str_of_int (processed_lines stats);
         MSG_CONVERTED ++ str_of_int (converted stats) ++ MSG_ENTRIES;
         MSG_TOTAL ++ str_of_int total;
         MSG_SKIPPED ++ str_of_int (skipped stats) ++ MSG_WRITTEN ++ skipped_file;
         MSG_FILTERED ++ str_of_int (filtered_nonjp stats) ]
       ++ (if negb (HAS_PYKAKASI _k) then [MSG_HINT] else []))
  end.

End Main.

(** The arguments of the samples. *)
Definition sample_args : Args :=
  mkArgs sample_dir sample_pattern sample_name None.

(** A record of five fields whose headword, the last one, is empty. *)
Definition empty_headword_line : str :=
  of_string "a" ++ [TAB] ++ of_string "1" ++ [TAB] ++ of_string "1" ++ [TAB]
  ++ of_string "100" ++ [TAB] ++ [LF].

(** * Properties *)

(** ** Tactics *)

(** Case analysis on the comparisons of code points in the goal. *)
Ltac cases_on_comparisons :=
  repeat match goal with
         | |- context [N.leb ?a ?b] => destruct (N.leb_spec a b)
         | |- context [N.ltb ?a ?b] => destruct (N.ltb_spec a b)
         | |- context [N.eqb ?a ?b] => destruct (N.eqb_spec a b)
         end; simpl; try lia; try reflexivity; try discriminate.

(** Settle each comparison of code points in the goal from the bounds
    in the context. *)
Ltac decide_comparisons :=
  repeat match goal with
         | |- context [N.leb ?a ?b] =>
             first [ replace (N.leb a b) with true by (symmetry; apply N.leb_le; lia)
                   | replace (N.leb a b) with false by (symmetry; apply N.leb_gt; lia) ]
         | |- context [N.eqb ?a ?b] =>
             replace (N.eqb a b) with false by (symmetry; apply N.eqb_neq; lia)
         end.

(** ** Character classes *)

Lemma in_ascii_class (c : N) :
  Py.in_class ASCII_CLASS c = true <-> key_char c.
Proof.
  unfold Py.in_class, ASCII_CLASS, key_char; simpl.
  split.
  - cases_on_comparisons.
  - intros [H | H]; cases_on_comparisons.
Qed.

Lemma key_char_not_space (c : N) : key_char c -> Py.isspace c = false.
Proof.
  unfold key_char, Py.isspace. intros H.
  assert (Hc : 48 <= c <= 122) by lia. clear H.
  decide_comparisons. reflexivity.
Qed.

Lemma sub_not_class_all (cls : Py.charclass) (s : str) :
  forallb (Py.in_class cls) (Py.sub_not_class cls s) = true.
Proof.
  unfold Py.sub_not_class.
  induction s as [| c s IH]; simpl; [reflexivity |].
  destruct (Py.in_class cls c) eqn:E; simpl; [rewrite E |]; exact IH.
Qed.

Lemma sub_not_class_key_chars (s : str) :
  Forall key_char (Py.sub_not_class ASCII_CLASS s).
Proof.
  apply Forall_forall. intros c Hc.
  apply in_ascii_class.
  pose proof (sub_not_class_all ASCII_CLASS s) as H.
  rewrite forallb_forall in H. apply H.
  apply list_elem_of_In. exact Hc.
Qed.

(** Re-validating a cleaned string only tests that it is not empty. *)
Lemma is_ascii_romaji_clean (s : str) :
  is_ascii_romaji (Py.sub_not_class ASCII_CLASS s)
  = truthy (Py.sub_not_class ASCII_CLASS s).
Proof.
  unfold is_ascii_romaji, Py.fullmatch_plus.
  rewrite sub_not_class_all. apply andb_true_r.
Qed.

Lemma truthy_false {A} (s : list A) : truthy s = false <-> s = [].
Proof. destruct s; simpl; split; congruence. Qed.

Lemma truthy_true {A} (s : list A) : truthy s = true <-> s <> [].
Proof. destruct s; simpl; split; congruence. Qed.

(** ** Transliteration engine *)

Section EngineFacts.

Variable hira2kata : str -> str.
Variable kana2alphabet : str -> str.
Variable lower : str -> str.

Local Abbreviation engine := (convert_reading_to_romaji hira2kata kana2alphabet lower).
Local Abbreviation engine_calls :=
  (convert_reading_to_romaji_calls hira2kata kana2alphabet lower).
Local Abbreviation clean := (romaji_clean_of hira2kata kana2alphabet lower).

Lemma romaji_clean_key_chars (reading : str) : Forall key_char (clean reading).
Proof. apply sub_not_class_key_chars. Qed.

Lemma r_py_clean_key_chars f r_kata s :
  r_py_clean_of lower f r_kata = Ok s -> Forall key_char s.
Proof.
  unfold r_py_clean_of, rbind. destruct (f r_kata); [| discriminate].
  intros [= <-]. apply sub_not_class_key_chars.
Qed.

Lemma engine_calls_closed_form _k (reading : str) :
  engine_calls _k reading =
  if negb (truthy reading) then (Ok [], [])
  else if truthy (clean reading) then (Ok (clean reading), [])
  else match _k with
       | None => (Ok (clean reading), [])
       | Some k =>
           (match r_py_clean_of lower (pykakasi_convert_body k)
                                (r_kata_of hira2kata reading) with
            | Ok r_py_clean =>
                Ok (if truthy r_py_clean then r_py_clean else clean reading)
            | Raise e => if is_Exception e then Ok (clean reading) else Raise e
            end, [r_kata_of hira2kata reading])
       end.
Proof.
  unfold convert_reading_to_romaji_calls.
  destruct (truthy reading); simpl; [| reflexivity].
  unfold romaji_clean_of at 1. rewrite is_ascii_romaji_clean.
  fold (clean reading).
  destruct (truthy (clean reading)); [reflexivity |].
  unfold HAS_PYKAKASI, pykakasi_convert.
  destruct _k as [k |]; [| reflexivity].
  destruct (r_py_clean_of lower (pykakasi_convert_body k) _) as [s | e];
    [destruct (truthy s) | destruct (is_Exception e)]; reflexivity.
Qed.

Lemma engine_key_chars _k (reading key : str) :
  engine _k reading = Ok key -> Forall key_char key.
Proof.
  unfold convert_reading_to_romaji. rewrite engine_calls_closed_form.
  destruct (truthy reading); simpl; [| intros [= <-]; constructor].
  destruct (truthy (clean reading)); simpl;
    [intros [= <-]; apply romaji_clean_key_chars |].
  destruct _k as [k |]; simpl; [| intros [= <-]; apply romaji_clean_key_chars].
  destruct (r_py_clean_of lower (pykakasi_convert_body k) _) as [s | e] eqn:E.
  - intros [= <-]. destruct (truthy s); [| apply romaji_clean_key_chars].
    eapply r_py_clean_key_chars; exact E.
  - destruct (is_Exception e); [| discriminate].
    intros [= <-]. apply romaji_clean_key_chars.
Qed.

(** The engine raises only what the backend raised, and only what
    [except Exception] does not catch. *)
Lemma engine_raises _k (reading : str) (e : exn) :
  engine _k reading = Raise e ->
  is_Exception e = false /\
  exists k, _k = Some k /\
            pykakasi_convert_body k (r_kata_of hira2kata reading) = Raise e.
Proof.
  unfold convert_reading_to_romaji. rewrite engine_calls_closed_form.
  destruct (truthy reading); simpl; [| discriminate].
  destruct (truthy (clean reading)); simpl; [discriminate |].
  destruct _k as [k |]; simpl; [| discriminate].
  unfold r_py_clean_of, rbind.
  destruct (pykakasi_convert_body k _) as [s | e'] eqn:E; [discriminate |].
  destruct (is_Exception e') eqn:Ee; [discriminate |].
  intros [= <-]. split; [exact Ee |]. exists k. split; [reflexivity | exact E].
Qed.

(** C5: whatever the reading, the libraries and the backend (present
    or not, answering or raising), every character of the key the
    engine returns is in [a-z0-9]: none is whitespace, none is an
    uppercase letter. The key may be empty. The engine returns a key
    unless the backend raised an exception that does not derive from
    [Exception], which no handler of the engine catches. *)
Theorem engine_key_charset _k (reading : str) :
  match convert_reading_to_romaji hira2kata kana2alphabet lower _k reading with
  | Ok key =>
      Forall (fun c => key_char c /\ Py.in_class ASCII_CLASS c = true
                       /\ Py.isspace c = false /\ ~ (65 <= c <= 90)) key
  | Raise e =>
      is_Exception e = false /\
      exists k, _k = Some k /\
                pykakasi_convert_body k (r_kata_of hira2kata reading) = Raise e
  end.
Proof.
  destruct (engine _k reading) as [key | e] eqn:E.
  - eapply Forall_impl; [eapply engine_key_chars; exact E |].
    intros c Hc. repeat split.
    + exact Hc.
    + apply in_ascii_class, Hc.
    + apply key_char_not_space, Hc.
    + unfold key_char in Hc. lia.
  - eapply engine_raises; exact E.
Qed.

(** C10: the clean candidate passes the re-validation if and only if
    it is not empty, and the engine calls the secondary backend exactly
    when the reading is not empty (step 1), the backend is available and
    the clean candidate is the empty string; the call is made once, on
    the katakana form of the reading. *)
Theorem secondary_consulted_iff_candidate_empty _k (reading : str) :
  (is_ascii_romaji (romaji_clean_of hira2kata kana2alphabet lower reading) = true
   <-> romaji_clean_of hira2kata kana2alphabet lower reading <> []) /\
  snd (convert_reading_to_romaji_calls hira2kata kana2alphabet lower _k reading) =
    (if truthy reading && HAS_PYKAKASI _k
        && negb (truthy (romaji_clean_of hira2kata kana2alphabet lower reading))
     then [r_kata_of hira2kata reading] else []).
Proof.
  split.
  - unfold romaji_clean_of. rewrite is_ascii_romaji_clean. apply truthy_true.
  - rewrite engine_calls_closed_form. unfold HAS_PYKAKASI.
    destruct (truthy reading); simpl; [| reflexivity].
    destruct (truthy (clean reading)), _k; reflexivity.
Qed.

Lemma backend_fails_no_key k r_kata :
  backend_fails lower k r_kata ->
  match r_py_clean_of lower (pykakasi_convert_body k) r_kata with
  | Ok s => s = []
  | Raise e => is_Exception e = true
  end.
Proof.
  unfold r_py_clean_of, rbind.
  intros [[e [He Hexc]] | [r_py [He Hclean]]]; rewrite He; simpl;
    [exact Hexc | exact Hclean].
Qed.

Lemma engine_backend_fails k (reading : str) :
  backend_fails lower k (r_kata_of hira2kata reading) ->
  engine (Some k) reading = engine None reading.
Proof.
  intros Hf. apply backend_fails_no_key in Hf.
  unfold convert_reading_to_romaji. rewrite !engine_calls_closed_form.
  destruct (truthy reading); simpl; [| reflexivity].
  destruct (truthy (clean reading)); simpl; [reflexivity |].
  destruct (r_py_clean_of lower (pykakasi_convert_body k) _) as [s | e];
    [subst s | rewrite Hf]; reflexivity.
Qed.

Lemma engine_no_backend_total (reading : str) :
  engine None reading = Ok (if truthy reading then clean reading else []).
Proof.
  unfold convert_reading_to_romaji. rewrite engine_calls_closed_form.
  destruct (truthy reading); simpl; [| reflexivity].
  destruct (truthy (clean reading)); reflexivity.
Qed.

Lemma engine_no_backend (reading : str) :
  reading <> [] -> engine None reading = Ok (clean reading).
Proof.
  intros Hr. apply truthy_true in Hr.
  rewrite engine_no_backend_total, Hr. reflexivity.
Qed.

Lemma pykakasi_convert_body_raises (k : kakasi) (text : str) (e : exn) :
  pykakasi_convert_body k text = Raise e -> k text = Raise e \/ e = KeyError.
Proof.
  unfold pykakasi_convert_body, rbind.
  destruct (k text) as [items |]; [| intros [= <-]; left; reflexivity].
  intros H. right.
  induction items as [| item items IH] in e, H |- *; simpl in H; [discriminate |].
  unfold rbind in H.
  destruct (item !! "hepburn"%string); [| congruence].
  destruct (rmap_list _ items) as [hs |] eqn:R; [discriminate |].
  apply IH. simpl. exact H.
Qed.

(** With a backend that raises only what derives from [Exception] the
    engine returns a key. *)
Lemma engine_total _k (reading : str) :
  raises_only_Exception _k -> exists key, engine _k reading = Ok key.
Proof.
  intros Hk. destruct (engine _k reading) as [key | e] eqn:E; [eauto |].
  apply engine_raises in E as (He & k & -> & Hb).
  apply pykakasi_convert_body_raises in Hb as [Hb | ->]; [| discriminate].
  rewrite (Hk k _ e eq_refl Hb) in He. discriminate.
Qed.

(** A record makes the pass raise only when the engine does. *)
Lemma process_record_raises _k (reading word : str) (w : World) (e : exn) :
  fst (process_record hira2kata kana2alphabet lower _k reading word w) = Raise e ->
  engine _k reading = Raise e.
Proof.
  unfold process_record.
  destruct (truthy word); simpl; [| discriminate].
  destruct (has_japanese word); simpl; [| discriminate].
  unfold bind, lift.
  destruct (engine _k reading) as [key |]; [| intros [= <-]; reflexivity].
  unfold ret. cbv beta iota.
  destruct (truthy key); discriminate.
Qed.

End EngineFacts.

(** ** Aggregation loop *)

Lemma pass_ok_push (f : Acc -> Acc) (w : World) :
  pass_ok w ->
  counters_bounded (f (cur w)) ->
  not_below (f (cur w)) (cur w) ->
  pass_ok (push f w).
Proof.
  intros [Hb Hs] Hnew Hge. split.
  - constructor; assumption.
  - constructor; [exact Hs |].
    constructor; [exact Hge |].
    apply StronglySorted_inv in Hs as [_ Hall].
    eapply Forall_impl; [exact Hall |].
    intros a Ha. unfold not_below in *. simpl. lia.
Qed.

Lemma pass_ok_cur (w : World) : pass_ok w -> counters_bounded (cur w).
Proof. intros [Hb _]. apply Forall_inv in Hb. exact Hb. Qed.

Lemma pass_ok_init : pass_ok init_world.
Proof.
  split.
  - constructor; [| constructor]. unfold counters_bounded. simpl. lia.
  - constructor; constructor.
Qed.

(** Every assignment of a line keeps the counters bounded and none of
    them decreases; the slack the line counter gains first is what the
    later increment uses. *)
Lemma apply_verdict_pass_ok (v : verdict) (w : World) :
  pass_ok w -> pass_ok (snd (apply_verdict v w)).
Proof.
  intros Hw. pose proof (pass_ok_cur w Hw) as Hc.
  unfold counters_bounded in Hc.
  destruct v; simpl;
    repeat (apply pass_ok_push; [| unfold counters_bounded; simpl; lia
                                 | unfold not_below; simpl; lia]);
    exact Hw.
Qed.

Section AggregatorFacts.

Variable hira2kata : str -> str.
Variable kana2alphabet : str -> str.
Variable lower : str -> str.
Variable _k : option kakasi.

Local Abbreviation process_record' := (process_record hira2kata kana2alphabet lower _k).
Local Abbreviation process_line' := (process_line hira2kata kana2alphabet lower _k).
Local Abbreviation process_lines' := (process_lines hira2kata kana2alphabet lower _k).
Local Abbreviation classify' := (classify hira2kata kana2alphabet lower _k).
Local Abbreviation classify_record' :=
  (classify_record hira2kata kana2alphabet lower _k).
Local Abbreviation entry_of_line' := (entry_of_line hira2kata kana2alphabet lower _k).
Local Abbreviation skipped_of_line' :=
  (skipped_of_line hira2kata kana2alphabet lower _k).

Lemma process_record_cases (reading word : str) (w : World) :
  process_record' reading word w
  = (verdict_outcome (classify_record' reading word),
     record_effect (classify_record' reading word) w).
Proof.
  unfold process_record, classify_record.
  destruct (truthy word); simpl; [| reflexivity].
  destruct (has_japanese word); simpl; [| reflexivity].
  unfold bind, lift.
  destruct (convert_reading_to_romaji _ _ _ _ reading) as [romaji | e];
    [| reflexivity].
  unfold ret. cbv beta iota.
  destruct (truthy romaji); reflexivity.
Qed.

Lemma classify_record_not_crashed (reading word : str) :
  classify_record' reading word <> Crashed.
Proof.
  unfold classify_record.
  destruct (truthy word); simpl; [| discriminate].
  destruct (has_japanese word); simpl; [| discriminate].
  destruct (convert_reading_to_romaji _ _ _ _ reading) as [romaji | e];
    [| discriminate].
  destruct (truthy romaji); discriminate.
Qed.

(** A record is aborted only by an exception the engine let through. *)
Lemma classify_record_aborted (reading word : str) (e : exn) :
  classify_record' reading word = Aborted e ->
  convert_reading_to_romaji hira2kata kana2alphabet lower _k reading = Raise e.
Proof.
  unfold classify_record.
  destruct (truthy word); simpl; [| discriminate].
  destruct (has_japanese word); simpl; [| discriminate].
  destruct (convert_reading_to_romaji _ _ _ _ reading) as [romaji | e'].
  - destruct (truthy romaji); discriminate.
  - intros [= <-]. reflexivity.
Qed.

Lemma classify_aborted (line : str) (e : exn) :
  classify' line = Aborted e -> is_Exception e = false.
Proof.
  unfold classify.
  destruct (negb (truthy (Py.strip line)) || Py.startswith (Py.strip line) [HASH]);
    [discriminate |].
  destruct (length (Py.split TAB (Py.strip line)) <? 2)%nat; [discriminate |].
  destruct (nth_error (Py.split TAB (Py.strip line)) 0) as [reading |],
           (nth_error (Py.split TAB (Py.strip line)) 4) as [word |];
    try discriminate.
  intros H. apply classify_record_aborted in H.
  eapply engine_raises; exact H.
Qed.

(** The loop body is the case analysis of [classify]. *)
Lemma process_line_cases (line : str) (w : World) :
  process_line' line w = apply_verdict (classify' line) w.
Proof.
  unfold process_line, classify, apply_verdict, bind, modify.
  fold (push incr_processed_lines w).
  destruct (negb (truthy (Py.strip line)) || Py.startswith (Py.strip line) [HASH]);
    [reflexivity |].
  destruct (length (Py.split TAB (Py.strip line)) <? 2)%nat; [reflexivity |].
  unfold Py.index.
  destruct (nth_error (Py.split TAB (Py.strip line)) 0) as [reading |],
           (nth_error (Py.split TAB (Py.strip line)) 4) as [word |];
    try reflexivity.
  unfold lift, ret.
  rewrite process_record_cases. reflexivity.
Qed.

Lemma process_line_pass_ok (line : str) (w : World) :
  pass_ok w -> pass_ok (snd (process_line' line w)).
Proof. rewrite process_line_cases. apply apply_verdict_pass_ok. Qed.

Lemma process_lines_pass_ok (lines : list str) (w : World) :
  pass_ok w -> pass_ok (snd (process_lines' lines w)).
Proof.
  revert w. induction lines as [| line rest IH]; intros w Hw; [exact Hw |].
  simpl. unfold bind.
  pose proof (process_line_pass_ok line w Hw) as H1.
  destruct (process_line' line w) as [[[] | e] w1]; simpl in *; auto.
Qed.

(** What a line adds to the two lists. *)
Lemma process_line_lists (line : str) (w : World) :
  results (cur (snd (process_line' line w)))
  = results (cur w) ++ entry_of_line' line /\
  skipped_entries (cur (snd (process_line' line w)))
  = skipped_entries (cur w) ++ skipped_of_line' line.
Proof.
  rewrite process_line_cases. unfold entry_of_line, skipped_of_line.
  destruct (classify' line); simpl; rewrite ?app_nil_r; split; reflexivity.
Qed.

Lemma process_lines_lists (lines : list str) (w w' : World) :
  process_lines' lines w = (Ok tt, w') ->
  results (cur w') = results (cur w) ++ flat_map entry_of_line' lines /\
  skipped_entries (cur w')
  = skipped_entries (cur w) ++ flat_map skipped_of_line' lines.
Proof.
  revert w. induction lines as [| line rest IH]; intros w; simpl.
  - intros [= <-]. rewrite !app_nil_r. split; reflexivity.
  - unfold bind. pose proof (process_line_lists line w) as [Hr Hs].
    destruct (process_line' line w) as [[[] | e] w1]; simpl in *; [| discriminate].
    intros H. apply IH in H as [Hr' Hs'].
    rewrite Hr', Hs', Hr, Hs, <- !app_assoc. split; reflexivity.
Qed.

Lemma process_lines_raises (lines : list str) (w : World) (e : exn) :
  fst (process_lines' lines w) = Raise e ->
  e = IndexError \/ is_Exception e = false.
Proof.
  revert w. induction lines as [| line rest IH]; intros w; simpl; [discriminate |].
  unfold bind. rewrite process_line_cases. unfold apply_verdict.
  destruct (classify' line) eqn:E; simpl; try apply IH.
  - intros [= <-]. left. reflexivity.
  - intros [= <-]. right. eapply classify_aborted; exact E.
Qed.

End AggregatorFacts.

(** ** [sorted] *)

Lemma str_le_total (a b : str) : Py.str_le a b = false -> Py.str_le b a = true.
Proof.
  revert b. induction a as [| x a IH]; intros [| y b]; simpl; try congruence.
  intros H. apply orb_false_iff in H as [H1 H2].
  apply N.ltb_ge in H1.
  destruct (N.eqb_spec x y) as [-> | Hne].
  - simpl in H2. rewrite (IH b H2), N.eqb_refl, orb_true_r. reflexivity.
  - assert (y < x) as ->%N.ltb_lt by lia. reflexivity.
Qed.

Lemma str_le_trans (a b c : str) :
  Py.str_le a b = true -> Py.str_le b c = true -> Py.str_le a c = true.
Proof.
  revert b c. induction a as [| x a IH]; intros [| y b] [| z c]; simpl;
    try congruence.
  intros H1 H2.
  apply orb_true_iff in H1 as [H1 | H1]; apply orb_true_iff in H2 as [H2 | H2];
    rewrite ?andb_true_iff, ?N.ltb_lt, ?N.eqb_eq in *.
  - assert (x < z) as ->%N.ltb_lt by lia. reflexivity.
  - destruct H2 as [-> _]. apply N.ltb_lt in H1. rewrite H1. reflexivity.
  - destruct H1 as [-> _]. apply N.ltb_lt in H2. rewrite H2. reflexivity.
  - destruct H1 as [-> H1], H2 as [-> H2].
    rewrite N.eqb_refl, (IH b c H1 H2), orb_true_r. reflexivity.
Qed.

Lemma insert_sorted_perm (x : str) (l : list str) :
  Permutation (Py.insert_sorted x l) (x :: l).
Proof.
  induction l as [| y l IH]; simpl; [reflexivity |].
  destruct (Py.str_le x y); [reflexivity |].
  rewrite IH. apply perm_swap.
Qed.

Lemma sorted_perm (l : list str) : Permutation (Py.sorted l) l.
Proof.
  induction l as [| x l IH]; simpl; [reflexivity |].
  rewrite insert_sorted_perm, IH. reflexivity.
Qed.

Lemma insert_sorted_ordered (x : str) (l : list str) :
  StronglySorted (fun a b => Py.str_le a b = true) l ->
  StronglySorted (fun a b => Py.str_le a b = true) (Py.insert_sorted x l).
Proof.
  induction l as [| y l IH]; simpl; intros Hl.
  - constructor; constructor.
  - apply StronglySorted_inv in Hl as [Hl Hy].
    destruct (Py.str_le x y) eqn:E.
    + constructor; [constructor; assumption |].
      constructor; [exact E |].
      eapply Forall_impl; [exact Hy |].
      intros z Hz. eapply str_le_trans; eassumption.
    + constructor; [apply IH, Hl |].
      eapply Permutation_Forall; [symmetry; apply insert_sorted_perm |].
      constructor; [apply str_le_total, E | exact Hy].
Qed.

Lemma sorted_ordered (l : list str) :
  StronglySorted (fun a b => Py.str_le a b = true) (Py.sorted l).
Proof.
  induction l as [| x l IH]; simpl; [constructor |].
  apply insert_sorted_ordered, IH.
Qed.

Lemma sorted_truthy (l : list str) : truthy (Py.sorted l) = truthy l.
Proof.
  destruct l as [| x l]; [reflexivity |]. simpl.
  destruct (Py.sorted l) as [| y l']; simpl; [reflexivity |].
  destruct (Py.str_le x y); reflexivity.
Qed.

(** ** The date of the header *)

Lemma digit_range (n : N) : 48 <= digit n <= 57.
Proof. unfold digit. lia. Qed.

(** The version is [YYYY.MM.DD]: ten characters, the digits of the year,
    the month and the day in base ten, zero-padded. *)
Lemma strftime_shape (d : date) :
  exists y1 y2 y3 y4 m1 m2 d1 d2,
    strftime_Ymd d = [y1; y2; y3; y4; 46; m1; m2; 46; d1; d2] /\
    Forall (fun c => 48 <= c <= 57) [y1; y2; y3; y4; m1; m2; d1; d2] /\
    year d mod 10000
    = 1000 * (y1 - 48) + 100 * (y2 - 48) + 10 * (y3 - 48) + (y4 - 48) /\
    month d mod 100 = 10 * (m1 - 48) + (m2 - 48) /\
    day d mod 100 = 10 * (d1 - 48) + (d2 - 48).
Proof.
  unfold strftime_Ymd, pad4, pad2. simpl.
  do 8 eexists. split; [reflexivity |].
  split; [repeat constructor; apply digit_range |].
  unfold digit. repeat split; lia.
Qed.

(** ** The run *)

Section RunFacts.

Variable hira2kata : str -> str.
Variable kana2alphabet : str -> str.
Variable lower : str -> str.
Variable _k : option kakasi.
Variable realpath : str -> str.
Variable glob_glob : FS -> str -> list str.
Variable os_path_join : str -> str -> str.
Variable today : date.

Local Abbreviation process_line' := (process_line hira2kata kana2alphabet lower _k).
Local Abbreviation process_file' :=
  (process_file hira2kata kana2alphabet lower _k realpath).
Local Abbreviation process_files' :=
  (process_files hira2kata kana2alphabet lower _k realpath).
Local Abbreviation aggregate' :=
  (aggregate hira2kata kana2alphabet lower _k realpath glob_glob os_path_join).
Local Abbreviation mozc_to_rime' :=
  (mozc_to_rime hira2kata kana2alphabet lower _k realpath glob_glob os_path_join
     today).
Local Abbreviation entry_of_line' := (entry_of_line hira2kata kana2alphabet lower _k).
Local Abbreviation skipped_of_line' :=
  (skipped_of_line hira2kata kana2alphabet lower _k).
Local Abbreviation entries_of_files' :=
  (entries_of_files hira2kata kana2alphabet lower _k realpath).
Local Abbreviation skipped_of_files' :=
  (skipped_of_files hira2kata kana2alphabet lower _k realpath).
Local Abbreviation file_lines' := (file_lines realpath).

Lemma process_file_pass_ok (fs : FS) (fp : str) (w : World) :
  pass_ok w -> pass_ok (snd (process_file' fs fp w)).
Proof.
  intros Hw. unfold process_file.
  destruct (open_read realpath fs fp); [apply process_lines_pass_ok, Hw | exact Hw].
Qed.

Lemma process_files_pass_ok (fs : FS) (files : list str) (w : World) :
  pass_ok w -> pass_ok (snd (process_files' fs files w)).
Proof.
  revert w. induction files as [| fp rest IH]; intros w Hw; [exact Hw |].
  simpl. unfold bind.
  pose proof (process_file_pass_ok fs fp w Hw) as H1.
  destruct (process_file' fs fp w) as [[[] | e] w1]; simpl in *; auto.
Qed.

Lemma aggregate_pass_ok (mozc_dir pattern : str) (fs : FS) :
  pass_ok (snd (aggregate' mozc_dir pattern fs)).
Proof.
  unfold aggregate.
  destruct (negb (truthy (Py.sorted _))); [apply pass_ok_init |].
  apply process_files_pass_ok, pass_ok_init.
Qed.

Lemma process_file_lists (fs : FS) (fp : str) (w w' : World) :
  process_file' fs fp w = (Ok tt, w') ->
  results (cur w')
  = results (cur w) ++ flat_map entry_of_line' (file_lines' fs fp) /\
  skipped_entries (cur w')
  = skipped_entries (cur w) ++ flat_map skipped_of_line' (file_lines' fs fp).
Proof.
  unfold process_file, file_lines.
  destruct (open_read realpath fs fp); [apply process_lines_lists | discriminate].
Qed.

Lemma process_files_lists (fs : FS) (files : list str) (w w' : World) :
  process_files' fs files w = (Ok tt, w') ->
  results (cur w') = results (cur w) ++ entries_of_files' fs files /\
  skipped_entries (cur w') = skipped_entries (cur w) ++ skipped_of_files' fs files.
Proof.
  unfold entries_of_files, skipped_of_files.
  revert w. induction files as [| fp rest IH]; intros w; simpl.
  - intros [= <-]. rewrite !app_nil_r. split; reflexivity.
  - unfold bind.
    destruct (process_file' fs fp w) as [[[] | e] w1] eqn:E; [| discriminate].
    apply process_file_lists in E as [Hr Hs].
    intros H. apply IH in H as [Hr' Hs'].
    rewrite Hr', Hs', Hr, Hs, <- !app_assoc. split; reflexivity.
Qed.

(** What ends a pass over the files: a line with too few fields, an
    exception of the backend that the engine does not catch, or a file
    on which [open] raises. *)
Lemma process_files_raises (fs : FS) (files : list str) (w : World) (e : exn) :
  fst (process_files' fs files w) = Raise e ->
  e = IndexError \/ is_Exception e = false \/
  exists fp, In fp files /\ open_read realpath fs fp = Raise e.
Proof.
  revert w. induction files as [| fp rest IH]; intros w; simpl; [discriminate |].
  unfold bind.
  destruct (process_file' fs fp w) as [[[] | e'] w1] eqn:E; simpl.
  - intros H. apply IH in H as [H | [H | [fp' [Hin H]]]]; auto.
    right. right. exists fp'. split; [right; exact Hin | exact H].
  - intros [= <-]. unfold process_file in E.
    destruct (open_read realpath fs fp) eqn:O.
    + assert (H : fst (process_lines hira2kata kana2alphabet lower _k
                         (Py.readlines a) w) = Raise e')
        by (rewrite E; reflexivity).
      apply process_lines_raises in H as [H | H]; auto.
    + injection E as <- _. right. right. exists fp.
      split; [left; reflexivity | exact O].
Qed.

Lemma aggregate_no_match (mozc_dir pattern : str) (fs : FS) :
  glob_glob fs (os_path_join mozc_dir pattern) = [] ->
  aggregate' mozc_dir pattern fs = (Raise FileNotFoundError, init_world).
Proof. unfold aggregate. intros ->. reflexivity. Qed.

Lemma aggregate_not_found (mozc_dir pattern : str) (fs : FS) :
  fst (aggregate' mozc_dir pattern fs) = Raise FileNotFoundError ->
  glob_glob fs (os_path_join mozc_dir pattern) = [] \/
  exists fp, In fp (glob_glob fs (os_path_join mozc_dir pattern)) /\
             open_read realpath fs fp = Raise FileNotFoundError.
Proof.
  unfold aggregate. rewrite sorted_truthy.
  destruct (glob_glob fs (os_path_join mozc_dir pattern)) as [| fp l] eqn:G;
    [left; reflexivity |].
  cbn [truthy negb]. intros H. right.
  apply process_files_raises in H as [H | [H | [fp' [Hin H]]]]; try discriminate.
  exists fp'. split; [| exact H].
  eapply Permutation_in; [apply sorted_perm | exact Hin].
Qed.

Lemma aggregate_lists (mozc_dir pattern : str) (fs : FS) (w : World) :
  aggregate' mozc_dir pattern fs = (Ok tt, w) ->
  let files := Py.sorted (glob_glob fs (os_path_join mozc_dir pattern)) in
  results (cur w) = entries_of_files' fs files /\
  skipped_entries (cur w) = skipped_of_files' fs files.
Proof.
  unfold aggregate.
  destruct (negb (truthy (Py.sorted _))); [discriminate |].
  intros H. apply process_files_lists in H. exact H.
Qed.

(** C7: at every point of an aggregation pass (after each assignment
    to the accumulators, up to the end of the pass or to the exception
    that ends it) [converted + skipped + filtered_nonjp <=
    processed_lines] holds and no counter is below any of its earlier
    values; and a line adds to [results] and to the skipped list at
    most one entry in all, none at all when it increments
    [filtered_nonjp], which then grows by one while [converted] and
    [skipped] keep their values. *)
Theorem counters_invariant (mozc_dir pattern : str) (fs : FS) :
  (let w := snd (aggregate hira2kata kana2alphabet lower _k realpath glob_glob
                   os_path_join mozc_dir pattern fs) in
   Forall counters_bounded (points w) /\ StronglySorted not_below (points w)) /\
  (forall (line : str) (w : World),
     let w' := snd (process_line hira2kata kana2alphabet lower _k line w) in
     exists es ss,
       results (cur w') = results (cur w) ++ es /\
       skipped_entries (cur w') = skipped_entries (cur w) ++ ss /\
       (length es + length ss <= 1)%nat /\
       (exists new, points w' = new ++ points w) /\
       (filtered_nonjp (stats (cur w')) = filtered_nonjp (stats (cur w)) \/
        (filtered_nonjp (stats (cur w')) = (filtered_nonjp (stats (cur w)) + 1)%Z /\
         converted (stats (cur w')) = converted (stats (cur w)) /\
         skipped (stats (cur w')) = skipped (stats (cur w)) /\
         es = [] /\ ss = []))).
Proof.
  split; [apply aggregate_pass_ok |].
  intros line w.
  exists (entry_of_line' line), (skipped_of_line' line).
  pose proof (process_line_lists hira2kata kana2alphabet lower _k line w) as [Hr Hs].
  split; [exact Hr |]. split; [exact Hs |].
  rewrite process_line_cases.
  unfold entry_of_line, skipped_of_line, apply_verdict, points.
  destruct (classify _ _ _ _ line); simpl; (split; [lia |]); split;
    try (left; reflexivity);
    try (right; repeat split; reflexivity);
    first [ eexists (cons _ nil); reflexivity
          | eexists (cons _ (cons _ nil)); reflexivity
          | eexists (cons _ (cons _ (cons _ nil))); reflexivity ].
Qed.

(** ** Opening the two output files *)

Lemma write_file_raise (path : str) (chunks : list str) (fs : FS) (e : exn) :
  write_file realpath path chunks fs = Raise e <->
  exists n, fs !! realpath path = Some n /\ write_error n = Some e.
Proof.
  unfold write_file.
  destruct (fs !! realpath path) as [n |]; [destruct (write_error n) eqn:W |].
  - split; [intros [= <-]; eauto |]. intros (n' & [= <-] & H). congruence.
  - split; [discriminate |]. intros (n' & [= <-] & H). congruence.
  - split; [discriminate |]. intros (n' & H & _). discriminate.
Qed.

Lemma write_file_ok (path : str) (chunks : list str) (fs fs1 : FS) :
  write_file realpath path chunks fs = Ok fs1 ->
  exists n, fs1 = <[realpath path := n]> fs /\
            node_text n = concat chunks /\ write_error n = None.
Proof.
  unfold write_file.
  destruct (fs !! realpath path) as [n |]; [destruct (write_error n) |];
    [discriminate | |]; intros [= <-]; eexists; repeat split.
Qed.

(** Whether [open] raises in mode ["w"] does not depend on what is to be
    written. *)
Lemma write_file_raise_chunks (path : str) (chunks chunks' : list str) (fs : FS)
    (e : exn) :
  write_file realpath path chunks fs = Raise e ->
  write_file realpath path chunks' fs = Raise e.
Proof. rewrite !write_file_raise. trivial. Qed.

Lemma mozc_to_rime_ok (mozc_dir pattern dict_name output_file : str)
    (fs fs' : FS) (r : Stats * Z * str) :
  mozc_to_rime' mozc_dir pattern dict_name output_file fs = (Ok r, fs') ->
  let files := Py.sorted (glob_glob fs (os_path_join mozc_dir pattern)) in
  let entries := entries_of_files' fs files in
  let skips := skipped_of_files' fs files in
  snd (fst r) = Z.of_nat (length entries) /\
  snd r = SKIPPED_TSV /\
  exists n_out n_skip,
    node_text n_out
    = header dict_name (strftime_Ymd today) ++ concat (map entry_line entries) /\
    node_text n_skip = concat (map skipped_line skips) /\
    write_error n_out = None /\ write_error n_skip = None /\
    fs' = <[realpath SKIPPED_TSV := n_skip]> (<[realpath output_file := n_out]> fs).
Proof.
  unfold mozc_to_rime.
  destruct (aggregate' mozc_dir pattern fs) as [[[] | e] w] eqn:E; [| discriminate].
  apply aggregate_lists in E as [Hr Hs]. cbv zeta in Hr, Hs. cbv zeta.
  destruct (write_file realpath output_file _ fs) as [fs1 | e] eqn:W1;
    [| discriminate].
  destruct (write_file realpath SKIPPED_TSV _ fs1) as [fs2 | e] eqn:W2;
    [| discriminate].
  intros [= <- <-].
  apply write_file_ok in W1 as (n1 & -> & T1 & E1).
  apply write_file_ok in W2 as (n2 & -> & T2 & E2).
  cbn [fst snd]. rewrite Hr in *. rewrite Hs in *.
  split; [reflexivity |]. split; [reflexivity |].
  exists n1, n2. repeat split; assumption.
Qed.

(** How a run can raise: in the pass, the file system being left as it
    was; on opening the output file, likewise; or on opening
    [skipped.tsv], the output file being written by then. *)
Lemma mozc_to_rime_raise_cases (mozc_dir pattern dict_name output_file : str)
    (fs fs' : FS) (e : exn) :
  mozc_to_rime' mozc_dir pattern dict_name output_file fs = (Raise e, fs') ->
  (fst (aggregate' mozc_dir pattern fs) = Raise e /\ fs' = fs) \/
  (fst (aggregate' mozc_dir pattern fs) = Ok tt /\ fs' = fs /\
   exists n, fs !! realpath output_file = Some n /\ write_error n = Some e) \/
  (fst (aggregate' mozc_dir pattern fs) = Ok tt /\
   realpath SKIPPED_TSV <> realpath output_file /\
   (exists n, fs !! realpath SKIPPED_TSV = Some n /\ write_error n = Some e) /\
   exists n_out,
     node_text n_out
     = header dict_name (strftime_Ymd today)
       ++ concat (map entry_line
                    (entries_of_files' fs
                       (Py.sorted (glob_glob fs (os_path_join mozc_dir pattern))))) /\
     fs' = <[realpath output_file := n_out]> fs).
Proof.
  unfold mozc_to_rime.
  destruct (aggregate' mozc_dir pattern fs) as [[[] | e'] w] eqn:E;
    [| intros [= <- <-]; left; split; reflexivity].
  apply aggregate_lists in E as [Hr _]. cbv zeta in Hr. cbv zeta.
  destruct (write_file realpath output_file _ fs) as [fs1 | e1] eqn:W1.
  - destruct (write_file realpath SKIPPED_TSV _ fs1) as [fs2 | e2] eqn:W2;
      [discriminate |].
    intros [= <- <-]. right. right.
    apply write_file_ok in W1 as (n1 & -> & T1 & E1).
    apply write_file_raise in W2 as (n & Hn & He).
    destruct (decide (realpath SKIPPED_TSV = realpath output_file)) as [Heq | Hne].
    + rewrite Heq, lookup_insert_eq in Hn. injection Hn as <-. congruence.
    + rewrite lookup_insert_ne in Hn by congruence.
      split; [reflexivity |]. split; [exact Hne |].
      split; [exists n; split; assumption |].
      exists n1. split; [| reflexivity].
      rewrite T1, Hr. reflexivity.
  - intros [= <- <-]. right. left.
    apply write_file_raise in W1.
    split; [reflexivity |]. split; [reflexivity | exact W1].
Qed.

(** C4: when the glob matches no path the run raises
    [FileNotFoundError] and returns the file system as it found it, so
    neither the output file nor [skipped.tsv] is created or modified.
    When the glob matches a path the run can still raise
    [FileNotFoundError], and then only from [open]: on a matched path
    that names no file, or on one of the two output paths (a name in a
    directory that does not exist). *)
Theorem not_found_causes (mozc_dir pattern dict_name output_file : str) (fs : FS) :
  (glob_glob fs (os_path_join mozc_dir pattern) = [] ->
   mozc_to_rime hira2kata kana2alphabet lower _k realpath glob_glob os_path_join
     today mozc_dir pattern dict_name output_file fs
   = (Raise FileNotFoundError, fs)) /\
  (fst (mozc_to_rime hira2kata kana2alphabet lower _k realpath glob_glob
          os_path_join today mozc_dir pattern dict_name output_file fs)
   = Raise FileNotFoundError ->
   glob_glob fs (os_path_join mozc_dir pattern) = [] \/
   (exists fp, In fp (glob_glob fs (os_path_join mozc_dir pattern)) /\
               open_read realpath fs fp = Raise FileNotFoundError) \/
   (exists n, fs !! realpath output_file = Some n /\
              write_error n = Some FileNotFoundError) \/
   (exists n, fs !! realpath SKIPPED_TSV = Some n /\
              write_error n = Some FileNotFoundError)).
Proof.
  split.
  - intros G. unfold mozc_to_rime.
    rewrite (aggregate_no_match _ _ _ G). reflexivity.
  - intros H.
    destruct (mozc_to_rime' mozc_dir pattern dict_name output_file fs)
      as [r fs'] eqn:E.
    simpl in H. subst r.
    apply mozc_to_rime_raise_cases in E
      as [[E _] | [(_ & _ & E) | (_ & _ & E & _)]].
    + apply aggregate_not_found in E as [E | E]; auto.
    + auto.
    + auto.
Qed.

(** C8: on a successful run the primary output file is written with
    the header block (banner, [name] with the supplied dictionary name,
    [version] with the current date as four digits, a dot, two digits, a
    dot and two digits, between double quotes, the sort directive, the
    columns [text] and [code], the delimiter and an empty line) followed
    by one [word<TAB>key<LF>] line per entry, the entries being those of
    the matched files taken in lexicographic order of their paths and,
    within a file, in line order. This is the text the output file holds
    when the run ends, provided the output path does not name the file
    that [skipped.tsv] names, which is written after it; no file but
    these two is touched. *)
Theorem primary_output_contents (mozc_dir pattern dict_name output_file : str)
    (fs fs' : FS) (r : Stats * Z * str) :
  mozc_to_rime hira2kata kana2alphabet lower _k realpath glob_glob os_path_join
    today mozc_dir pattern dict_name output_file fs = (Ok r, fs') ->
  realpath output_file <> realpath SKIPPED_TSV ->
  let matched := glob_glob fs (os_path_join mozc_dir pattern) in
  let files := Py.sorted matched in
  let entries := entries_of_files hira2kata kana2alphabet lower _k realpath fs files in
  let version := strftime_Ymd today in
  let head :=
    of_string "# Rime dictionary converted from Mozc" ++ [LF] ++
    of_string "# encoding: utf-8" ++ [LF] ++
    of_string "---" ++ [LF] ++
    of_string "name: " ++ dict_name ++ [LF] ++
    of_string "version: " ++ [QUOTE] ++ version ++ [QUOTE] ++ [LF] ++
    of_string "sort: by_weight" ++ [LF] ++
    of_string "columns:" ++ [LF] ++
    of_string "  - text" ++ [LF] ++
    of_string "  - code" ++ [LF] ++
    of_string "..." ++ [LF] ++ [LF] in
  let body := head ++ concat (map (fun e => fst e ++ [TAB] ++ snd e ++ [LF]) entries) in
  Permutation files matched /\
  StronglySorted (fun a b => Py.str_le a b = true) files /\
  (exists y1 y2 y3 y4 m1 m2 d1 d2,
      version = [y1; y2; y3; y4; 46; m1; m2; 46; d1; d2] /\
      Forall (fun c => 48 <= c <= 57) [y1; y2; y3; y4; m1; m2; d1; d2] /\
      year today mod 10000
      = 1000 * (y1 - 48) + 100 * (y2 - 48) + 10 * (y3 - 48) + (y4 - 48) /\
      month today mod 100 = 10 * (m1 - 48) + (m2 - 48) /\
      day today mod 100 = 10 * (d1 - 48) + (d2 - 48)) /\
  snd (fst r) = Z.of_nat (length entries) /\
  file_text realpath fs' output_file = Some body /\
  (forall key : str,
     key <> realpath output_file -> key <> realpath SKIPPED_TSV ->
     fs' !! key = fs !! key).
Proof.
  intros H Hne.
  apply mozc_to_rime_ok in H as (Hn & _ & n1 & n2 & T1 & _ & _ & _ & Hfs).
  cbv zeta in Hn, T1, Hfs. cbv zeta.
  split; [apply sorted_perm |].
  split; [apply sorted_ordered |].
  split; [apply strftime_shape |].
  split; [exact Hn |].
  split.
  - unfold file_text. rewrite Hfs.
    rewrite lookup_insert_ne by congruence.
    rewrite lookup_insert_eq. simpl. rewrite T1. reflexivity.
  - intros key H1 H2. rewrite Hfs.
    rewrite !lookup_insert_ne by congruence. reflexivity.
Qed.

(** C9: on a successful run the file [skipped.tsv] holds, whatever it
    held before and whether or not it existed, exactly one
    [word<TAB>reading<TAB>reason<LF>] line per skipped entry, in the
    order of the aggregation (files in sorted order, lines in file
    order); with no skipped entry it exists and is empty. Its name is
    the third component of the value the run returns. *)
Theorem diagnostic_file_contents (mozc_dir pattern dict_name output_file : str)
    (fs fs' : FS) (r : Stats * Z * str) :
  mozc_to_rime hira2kata kana2alphabet lower _k realpath glob_glob os_path_join
    today mozc_dir pattern dict_name output_file fs = (Ok r, fs') ->
  let files := Py.sorted (glob_glob fs (os_path_join mozc_dir pattern)) in
  let skips := skipped_of_files hira2kata kana2alphabet lower _k realpath fs files in
  snd r = of_string "skipped.tsv" /\
  file_text realpath fs' (of_string "skipped.tsv")
  = Some (concat (map (fun e => fst (fst e) ++ [TAB] ++ snd (fst e) ++ [TAB]
                                ++ snd e ++ [LF]) skips)) /\
  (skips = [] -> file_text realpath fs' (of_string "skipped.tsv") = Some []).
Proof.
  intros H.
  apply mozc_to_rime_ok in H as (_ & Hr & n1 & n2 & _ & T2 & _ & _ & Hfs).
  cbv zeta in T2, Hfs. cbv zeta. fold SKIPPED_TSV.
  assert (Hl : file_text realpath fs' SKIPPED_TSV
               = Some (concat (map skipped_line
                         (skipped_of_files' fs
                            (Py.sorted (glob_glob fs (os_path_join mozc_dir pattern))))))).
  { unfold file_text. rewrite Hfs, lookup_insert_eq. simpl. rewrite T2. reflexivity. }
  split; [exact Hr |].
  split; [exact Hl |].
  intros E. rewrite Hl, E. reflexivity.
Qed.

End RunFacts.

(** ** Which runs raise *)

Section Outcomes.

Variable hira2kata : str -> str.
Variable kana2alphabet : str -> str.
Variable lower : str -> str.
Variable _k : option kakasi.
Variable realpath : str -> str.
Variable glob_glob : FS -> str -> list str.
Variable os_path_join : str -> str -> str.
Variable today : date.

Hypothesis backend_raises_only_Exception : raises_only_Exception _k.

Lemma classify_record_not_aborted (reading word : str) (e : exn) :
  classify_record hira2kata kana2alphabet lower _k reading word <> Aborted e.
Proof.
  intros H. apply classify_record_aborted in H.
  destruct (engine_total hira2kata kana2alphabet lower _k reading
              backend_raises_only_Exception) as [key Hkey].
  congruence.
Qed.

Lemma process_line_outcome (line : str) (w : World) :
  fst (process_line hira2kata kana2alphabet lower _k line w)
  = if line_crashes line then Raise IndexError else Ok tt.
Proof.
  rewrite process_line_cases. unfold apply_verdict, classify, line_crashes.
  cbv beta iota zeta delta [fst].
  destruct (negb (truthy (Py.strip line)) || Py.startswith (Py.strip line) [HASH]);
    [reflexivity |].
  destruct (length (Py.split TAB (Py.strip line)) <? 2)%nat; [reflexivity |].
  destruct (nth_error (Py.split TAB (Py.strip line)) 0) as [reading |],
           (nth_error (Py.split TAB (Py.strip line)) 4) as [word |];
    try reflexivity.
  pose proof (classify_record_not_crashed hira2kata kana2alphabet lower _k
                (Py.strip reading) (Py.strip word)) as Hc.
  pose proof (classify_record_not_aborted (Py.strip reading) (Py.strip word)) as Ha.
  destruct (classify_record _ _ _ _ (Py.strip reading) (Py.strip word)) as
    [| | e | | |]; try reflexivity; [congruence | destruct (Ha e eq_refl)].
Qed.

Lemma process_lines_outcome (lines : list str) (w : World) :
  fst (process_lines hira2kata kana2alphabet lower _k lines w)
  = if existsb line_crashes lines then Raise IndexError else Ok tt.
Proof.
  revert w. induction lines as [| line rest IH]; intros w; [reflexivity |].
  simpl. unfold bind.
  pose proof (process_line_outcome line w) as H.
  destruct (process_line hira2kata kana2alphabet lower _k line w) as [[[] | e] w1];
    simpl in H; destruct (line_crashes line); try discriminate; simpl.
  - apply IH.
  - exact H.
Qed.

Lemma process_files_outcome (fs : FS) (files : list str) (w : World) :
  fst (process_files hira2kata kana2alphabet lower _k realpath fs files w)
  = files_outcome realpath fs files.
Proof.
  revert w. induction files as [| fp rest IH]; intros w; [reflexivity |].
  simpl. unfold bind, file_outcome.
  assert (H : fst (process_file hira2kata kana2alphabet lower _k realpath fs fp w)
              = file_outcome realpath fs fp).
  { unfold process_file, file_outcome.
    destruct (open_read realpath fs fp); [apply process_lines_outcome | reflexivity]. }
  unfold file_outcome in H.
  destruct (process_file hira2kata kana2alphabet lower _k realpath fs fp w)
    as [[[] | e] w1];
    simpl in H; rewrite <- H; [apply IH | reflexivity].
Qed.

(** The pass raises or not by the glob, the files and the shape of
    their lines alone. *)
Lemma aggregate_outcome (mozc_dir pattern : str) (fs : FS) :
  fst (aggregate hira2kata kana2alphabet lower _k realpath glob_glob os_path_join
         mozc_dir pattern fs)
  = match Py.sorted (glob_glob fs (os_path_join mozc_dir pattern)) with
    | [] => Raise FileNotFoundError
    | files => files_outcome realpath fs files
    end.
Proof.
  unfold aggregate.
  destruct (Py.sorted (glob_glob fs (os_path_join mozc_dir pattern))) as [| fp l];
    [reflexivity |].
  apply process_files_outcome.
Qed.

End Outcomes.

Lemma write_file_raise_after (realpath : str -> str) (p q : str)
    (c c' d d' : list str) (fs fs1 fs1' : FS) (e : exn) :
  write_file realpath p c fs = Ok fs1 ->
  write_file realpath p c' fs = Ok fs1' ->
  write_file realpath q d fs1 = Raise e <-> write_file realpath q d' fs1' = Raise e.
Proof.
  intros (n & -> & _ & Hn)%write_file_ok (n' & -> & _ & Hn')%write_file_ok.
  rewrite !write_file_raise.
  destruct (decide (realpath q = realpath p)) as [-> | Hne].
  - rewrite !lookup_insert_eq.
    split; intros (m & [= <-] & H); congruence.
  - rewrite !lookup_insert_ne by congruence. reflexivity.
Qed.

(** A run raises what its pass raises or, after a pass that ends, what
    opening the output files raises. *)
Lemma mozc_to_rime_raises (hira2kata kana2alphabet lower : str -> str)
    (_k : option kakasi) (realpath : str -> str) (glob_glob : FS -> str -> list str)
    (os_path_join : str -> str -> str) (today : date)
    (mozc_dir pattern dict_name output_file : str) (fs : FS) (e : exn) :
  fst (mozc_to_rime hira2kata kana2alphabet lower _k realpath glob_glob os_path_join
         today mozc_dir pattern dict_name output_file fs) = Raise e
  <-> match fst (aggregate hira2kata kana2alphabet lower _k realpath glob_glob
                   os_path_join mozc_dir pattern fs) with
      | Raise e' => e' = e
      | Ok _ => writes_outcome realpath output_file fs = Raise e
      end.
Proof.
  unfold mozc_to_rime, writes_outcome.
  destruct (aggregate _ _ _ _ _ _ _ mozc_dir pattern fs) as [[[] | e'] w];
    cbn [fst]; [| split; congruence].
  cbv zeta.
  destruct (write_file realpath output_file (_ :: _) fs) as [fs1 | e1] eqn:W1.
  - destruct (write_file realpath output_file [] fs) as [fs1' | e1'] eqn:W1'.
    + pose proof (write_file_raise_after realpath output_file SKIPPED_TSV _ _
                    (map skipped_line (skipped_entries (cur w))) [] fs fs1 fs1' e
                    W1 W1') as [H1 H2].
      destruct (write_file realpath SKIPPED_TSV (map _ _) fs1) as [fs2 | e2];
        destruct (write_file realpath SKIPPED_TSV [] fs1') as [fs2' | e2'];
        cbn [fst]; split; intros H'; try discriminate; injection H' as <-;
        first [ discriminate (H1 eq_refl) | discriminate (H2 eq_refl)
              | injection (H1 eq_refl) as -> | injection (H2 eq_refl) as -> ];
        reflexivity.
    + apply (write_file_raise_chunks realpath output_file []
               (header dict_name (strftime_Ymd today)
                :: map entry_line (results (cur w)))) in W1'.
      congruence.
  - apply (write_file_raise_chunks realpath output_file _ []) in W1.
    rewrite W1. cbn [fst]. split; congruence.
Qed.

(** C6: when the call to the secondary backend raises an exception
    that derives from [Exception], or returns what cleans to the empty
    string, the engine returns the primary clean candidate, which is
    what it returns with no backend at all; the loop body behaves on the
    record as it does with no backend and ends without an exception;
    and with a backend that raises only such exceptions a run ends with
    an exception exactly when the run without the backend does. *)
Theorem secondary_failure_falls_through (hira2kata kana2alphabet lower : str -> str)
    (k : kakasi) (reading : str) :
  reading <> [] ->
  backend_fails lower k (r_kata_of hira2kata reading) ->
  convert_reading_to_romaji hira2kata kana2alphabet lower (Some k) reading
  = Ok (romaji_clean_of hira2kata kana2alphabet lower reading) /\
  convert_reading_to_romaji hira2kata kana2alphabet lower (Some k) reading
  = convert_reading_to_romaji hira2kata kana2alphabet lower None reading /\
  (forall (word : str) (w : World),
     process_record hira2kata kana2alphabet lower (Some k) reading word w
     = process_record hira2kata kana2alphabet lower None reading word w /\
     fst (process_record hira2kata kana2alphabet lower (Some k) reading word w)
     = Ok tt) /\
  (raises_only_Exception (Some k) ->
   forall realpath glob_glob os_path_join today
          (mozc_dir pattern dict_name output_file : str) (fs : FS) (e : exn),
     fst (mozc_to_rime hira2kata kana2alphabet lower (Some k) realpath glob_glob
            os_path_join today mozc_dir pattern dict_name output_file fs) = Raise e
     <-> fst (mozc_to_rime hira2kata kana2alphabet lower None realpath glob_glob
                os_path_join today mozc_dir pattern dict_name output_file fs)
         = Raise e).
Proof.
  intros Hr Hf.
  pose proof (engine_backend_fails hira2kata kana2alphabet lower k reading Hf) as E.
  split; [rewrite E; apply engine_no_backend, Hr |].
  split; [exact E |].
  split.
  - intros word w. split.
    + unfold process_record. rewrite E. reflexivity.
    + destruct (fst (process_record _ _ _ (Some k) reading word w)) as [[] | e] eqn:P;
        [reflexivity |].
      apply process_record_raises in P. rewrite E, engine_no_backend in P by exact Hr.
      discriminate.
  - intros Hk. intros.
    assert (Hnone : raises_only_Exception None) by (intros k' r e' [=]).
    rewrite !mozc_to_rime_raises.
    rewrite (aggregate_outcome _ _ _ _ _ _ _ Hk).
    rewrite (aggregate_outcome _ _ _ _ _ _ _ Hnone). reflexivity.
Qed.

(** ** Lines with too few fields *)

(** A line of one field is passed over: only the line counter moves. *)
Lemma one_field_line_ignored hira2kata kana2alphabet lower _k (line : str) (w : World) :
  length (Py.split TAB (Py.strip line)) = 1%nat ->
  process_line hira2kata kana2alphabet lower _k line w
  = (Ok tt, push incr_processed_lines w).
Proof.
  intros H. rewrite process_line_cases. unfold classify. rewrite H. simpl.
  destruct (negb (truthy (Py.strip line)) || Py.startswith (Py.strip line) [HASH]);
    reflexivity.
Qed.

(** A line of two, three or four fields that is no comment raises
    [IndexError] at [parts[4]]. *)
Lemma short_line_raises hira2kata kana2alphabet lower _k (line : str) (w : World) :
  Py.startswith (Py.strip line) [HASH] = false ->
  (2 <= length (Py.split TAB (Py.strip line)) < 5)%nat ->
  process_line hira2kata kana2alphabet lower _k line w
  = (Raise IndexError, push incr_processed_lines w).
Proof.
  intros Hc Hn. rewrite process_line_cases. unfold classify. rewrite Hc.
  destruct (Py.strip line) as [| c s] eqn:E; [simpl in Hn; lia |].
  simpl negb. simpl orb. cbv iota.
  destruct (Nat.ltb_spec (length (Py.split TAB (c :: s))) 2) as [Hlt | _]; [lia |].
  assert (H4 : nth_error (Py.split TAB (c :: s)) 4 = None)
    by (apply nth_error_None; lia).
  rewrite H4.
  destruct (nth_error (Py.split TAB (c :: s)) 0); reflexivity.
Qed.

(** C1: on the two-field line [a<TAB>b] the loop body counts the line
    and then raises [IndexError] when it reads the headword field, and a
    run over a file with such a line ends with that exception and writes
    no file: the line is not skipped and the pass does not go on. *)
Theorem short_line_aborts_run :
  process_line no_kana no_kana ascii_lower None short_line init_world
  = (Raise IndexError, push incr_processed_lines init_world) /\
  length (Py.split TAB (Py.strip short_line)) = 2%nat /\
  mozc_to_rime no_kana no_kana ascii_lower None sample_realpath
      sample_glob posix_join sample_today
    sample_dir sample_pattern sample_name sample_out short_fs
  = (Raise IndexError, short_fs).
Proof.
  split; [| split].
  - apply short_line_raises; vm_compute; [reflexivity | lia].
  - reflexivity.
  - vm_compute. reflexivity.
Qed.

(** ** The reading of a line *)

Lemma lstrip_snoc (l : str) (c : N) :
  Py.isspace c = false -> Py.lstrip (l ++ [c]) = Py.lstrip l ++ [c].
Proof.
  intros Hc. induction l as [| x l IH]; simpl.
  - rewrite Hc. reflexivity.
  - destruct (Py.isspace x); [exact IH | reflexivity].
Qed.

Lemma lstrip_head (s s' : str) (c : N) :
  Py.lstrip s = c :: s' -> Py.isspace c = false.
Proof.
  induction s as [| x s IH]; simpl; [discriminate |].
  destruct (Py.isspace x) eqn:E; [exact IH |].
  intros [= <- _]. exact E.
Qed.

Lemma rstrip_cons (c : N) (s : str) :
  Py.isspace c = false -> exists s', Py.rstrip (c :: s) = c :: s'.
Proof.
  intros Hc. unfold Py.rstrip. simpl rev.
  rewrite lstrip_snoc by exact Hc. rewrite rev_app_distr. simpl. eauto.
Qed.

Lemma strip_head (s s' : str) (c : N) :
  Py.strip s = c :: s' -> Py.isspace c = false.
Proof.
  unfold Py.strip. destruct (Py.lstrip s) as [| x t] eqn:E; [discriminate |].
  apply lstrip_head in E.
  destruct (rstrip_cons x t E) as [t' ->]. intros [= <- _]. exact E.
Qed.

Lemma split_head (sep c : N) (s : str) :
  c <> sep -> exists p ps, Py.split sep (c :: s) = (c :: p) :: ps.
Proof.
  intros Hc. simpl. apply N.eqb_neq in Hc. rewrite Hc.
  destruct (Py.split sep s); eauto.
Qed.

(** The reading the loop body extracts is never empty: the line was
    stripped, so its first field starts with a character that is no
    whitespace. *)
Lemma reading_not_empty (line reading : str) :
  Py.strip line <> [] ->
  nth_error (Py.split TAB (Py.strip line)) 0 = Some reading ->
  Py.strip reading <> [].
Proof.
  intros Hne H0.
  destruct (Py.strip line) as [| c s] eqn:E; [congruence |].
  pose proof (strip_head _ _ _ E) as Hc.
  assert (Hsep : c <> TAB) by (intros ->; discriminate Hc).
  destruct (split_head TAB c s Hsep) as (p & ps & Hs).
  rewrite Hs in H0. injection H0 as <-.
  unfold Py.strip. simpl. rewrite Hc.
  destruct (rstrip_cons c p Hc) as [t' ->]. discriminate.
Qed.

(** ** The iteration mark *)

(** C2, as stated: the headword U+3005 fails the qualifying-script
    test. The line that has it after an empty first field loses its
    leading tab to [strip], is left with four fields and raises
    [IndexError]; the line that has it after the reading [noma] only
    increments [filtered_nonjp]. Neither appends a skipped entry. *)
Lemma iteration_mark_is_filtered :
  has_japanese [0x3005] = false /\
  empty_reading_line
  = [TAB] ++ of_string "1" ++ [TAB] ++ of_string "1" ++ [TAB] ++ of_string "100"
    ++ [TAB] ++ [0x3005] ++ [LF] /\
  length (Py.split TAB (Py.strip empty_reading_line)) = 4%nat /\
  process_line no_kana no_kana ascii_lower None empty_reading_line init_world
  = (Raise IndexError, push incr_processed_lines init_world) /\
  process_line no_kana no_kana ascii_lower None iteration_mark_line init_world
  = (Ok tt, push incr_filtered_nonjp (push incr_processed_lines init_world)) /\
  skipped_entries
    (cur (snd (process_line no_kana no_kana ascii_lower None iteration_mark_line
                 init_world)))
  = [] /\
  skipped
    (stats (cur (snd (process_line no_kana no_kana ascii_lower None
                        iteration_mark_line init_world))))
  = 0%Z.
Proof. repeat split; vm_compute; reflexivity. Qed.

Lemma split_nil (sep : N) : Py.split sep [] = [[]].
Proof. reflexivity. Qed.

(** C2, amended: the headword U+3005 fails the qualifying-script test
    (it is in neither range), so on every line that is no comment and
    whose fifth field is that headword the loop body counts the line,
    increments [filtered_nonjp] and does nothing else: no entry and no
    skipped entry is appended, [converted] and [skipped] keep their
    values. The reading of such a line is never empty; on the empty
    reading the engine would return the empty string. *)
Theorem iteration_mark_record hira2kata kana2alphabet lower _k
    (line reading word : str) (w : World) :
  Py.startswith (Py.strip line) [HASH] = false ->
  nth_error (Py.split TAB (Py.strip line)) 0 = Some reading ->
  nth_error (Py.split TAB (Py.strip line)) 4 = Some word ->
  Py.strip word = [0x3005] ->
  has_japanese [0x3005] = false /\
  convert_reading_to_romaji hira2kata kana2alphabet lower _k [] = Ok [] /\
  Py.strip reading <> [] /\
  process_line hira2kata kana2alphabet lower _k line w
  = (Ok tt, push incr_filtered_nonjp (push incr_processed_lines w)) /\
  let w' := snd (process_line hira2kata kana2alphabet lower _k line w) in
  results (cur w') = results (cur w) /\
  skipped_entries (cur w') = skipped_entries (cur w) /\
  stats (cur w')
  = mkStats (processed_lines (stats (cur w)) + 1) (converted (stats (cur w)))
            (skipped (stats (cur w))) (filtered_nonjp (stats (cur w)) + 1).
Proof.
  intros Hc H0 H4 Hw.
  assert (Hne : Py.strip line <> []).
  { intros E. rewrite E, split_nil in H4. discriminate H4. }
  assert (Hp : process_line hira2kata kana2alphabet lower _k line w
               = (Ok tt, push incr_filtered_nonjp (push incr_processed_lines w))).
  { rewrite process_line_cases. unfold classify. rewrite Hc.
    apply truthy_true in Hne. rewrite Hne. cbn [negb orb].
    destruct (Nat.ltb_spec (length (Py.split TAB (Py.strip line))) 2) as [Hlt | _].
    - assert (4 < length (Py.split TAB (Py.strip line)))%nat
        by (apply nth_error_Some; congruence).
      lia.
    - rewrite H0, H4. unfold classify_record. rewrite Hw. reflexivity. }
  split; [reflexivity |]. split; [reflexivity |].
  split; [eapply reading_not_empty; eassumption |].
  split; [exact Hp |].
  rewrite Hp. repeat split; reflexivity.
Qed.

Lemma iteration_mark_record_witness :
  Py.startswith (Py.strip iteration_mark_line) [HASH] = false /\
  nth_error (Py.split TAB (Py.strip iteration_mark_line)) 0 = Some (of_string "noma") /\
  nth_error (Py.split TAB (Py.strip iteration_mark_line)) 4 = Some [0x3005] /\
  process_line no_kana no_kana ascii_lower None iteration_mark_line init_world
  = (Ok tt, push incr_filtered_nonjp (push incr_processed_lines init_world)).
Proof.
  split; [reflexivity |]. split; [reflexivity |]. split; [reflexivity |].
  exact (proj1 (proj2 (proj2 (proj2
           (iteration_mark_record no_kana no_kana ascii_lower None
              iteration_mark_line (of_string "noma") [0x3005] init_world
              eq_refl eq_refl eq_refl eq_refl))))).
Defined.

(** ** The reason of a skipped entry *)

(** C3, as stated: the headword U+5B66 qualifies, the reading [!] gives
    the empty key, and the skipped entry appended carries the literal of
    the source, which is not the string of the claim. *)
Lemma skipped_reason_differs :
  has_japanese [0x5B66] = true /\
  convert_reading_to_romaji no_kana no_kana ascii_lower None [0x21] = Ok [] /\
  skipped_entries
    (cur (snd (process_record no_kana no_kana ascii_lower None [0x21] [0x5B66]
                 init_world)))
  = [([0x5B66], [0x21],
      [0x65E0; 0x6CD5; 0x751F; 0x6210] ++ of_string "ASCII romaji")] /\
  [0x65E0; 0x6CD5; 0x751F; 0x6210] ++ of_string "ASCII romaji"
  <> of_string "no ASCII romaji derivable".
Proof.
  repeat split; try reflexivity. vm_compute. discriminate.
Qed.

(** C3, amended: for every record whose headword qualifies by script
    and whose reading yields the empty key, the loop body increments
    [skipped] and appends one skipped entry, whose third component is the
    source's literal: the four characters U+65E0 U+6CD5 U+751F U+6210
    followed by [ASCII romaji]. *)
Theorem skipped_reason_literal hira2kata kana2alphabet lower _k
    (reading word : str) (w : World) :
  has_japanese word = true ->
  convert_reading_to_romaji hira2kata kana2alphabet lower _k reading = Ok [] ->
  let w' := snd (process_record hira2kata kana2alphabet lower _k reading word w) in
  skipped_entries (cur w')
  = skipped_entries (cur w)
    ++ [(word, reading,
         [0x65E0; 0x6CD5; 0x751F; 0x6210] ++ of_string "ASCII romaji")] /\
  results (cur w') = results (cur w) /\
  skipped (stats (cur w')) = (skipped (stats (cur w)) + 1)%Z.
Proof.
  intros Hj He. rewrite process_record_cases. unfold classify_record.
  assert (truthy word = true) as ->.
  { destruct word; [discriminate Hj | reflexivity]. }
  rewrite Hj, He. simpl. repeat split; reflexivity.
Qed.

Lemma skipped_reason_literal_witness :
  has_japanese [0x5B66] = true /\
  convert_reading_to_romaji no_kana no_kana ascii_lower None [0x21] = Ok [] /\
  skipped_entries
    (cur (snd (process_record no_kana no_kana ascii_lower None [0x21] [0x5B66]
                 init_world)))
  = [([0x5B66], [0x21],
      [0x65E0; 0x6CD5; 0x751F; 0x6210] ++ of_string "ASCII romaji")].
Proof.
  split; [reflexivity |]. split; [reflexivity |].
  exact (proj1 (skipped_reason_literal no_kana no_kana ascii_lower None
                  [0x21] [0x5B66] init_world eq_refl eq_refl)).
Defined.

(** ** The theorems on sample inputs *)

Example sample_run_result :
  fst (mozc_to_rime no_kana no_kana ascii_lower None sample_realpath
      sample_glob posix_join
         sample_today sample_dir sample_pattern sample_name sample_out sample_fs)
  = Ok (mkStats 4 1 1 1, 1%Z, of_string "skipped.tsv").
Proof. vm_compute. reflexivity. Qed.

Example secondary_backend_answers :
  convert_reading_to_romaji_calls no_kana no_kana ascii_lower (Some answering_kakasi)
    [0x21]
  = (Ok (of_string "gakkou"), [[0x21]]).
Proof. vm_compute. reflexivity. Qed.

Example primary_path_makes_no_call :
  convert_reading_to_romaji_calls no_kana no_kana ascii_lower (Some answering_kakasi)
    (of_string "Ga kkou")
  = (Ok (of_string "gakkou"), []).
Proof. vm_compute. reflexivity. Qed.

Lemma secondary_failure_falls_through_witness :
  [0x21] <> [] /\
  backend_fails ascii_lower failing_kakasi (r_kata_of no_kana [0x21]) /\
  convert_reading_to_romaji no_kana no_kana ascii_lower (Some failing_kakasi) [0x21]
  = Ok (romaji_clean_of no_kana no_kana ascii_lower [0x21]).
Proof.
  assert (H1 : [0x21] <> @nil N) by discriminate.
  assert (H2 : backend_fails ascii_lower failing_kakasi (r_kata_of no_kana [0x21]))
    by (left; exists OtherException; split; reflexivity).
  split; [exact H1 |]. split; [exact H2 |].
  exact (proj1 (secondary_failure_falls_through no_kana no_kana ascii_lower
                  failing_kakasi [0x21] H1 H2)).
Defined.

Lemma sample_run_ok :
  mozc_to_rime no_kana no_kana ascii_lower None sample_realpath
      sample_glob posix_join sample_today
    sample_dir sample_pattern sample_name sample_out sample_fs
  = (Ok (mkStats 4 1 1 1, 1%Z, of_string "skipped.tsv"),
     snd (mozc_to_rime no_kana no_kana ascii_lower None sample_realpath
         sample_glob posix_join
            sample_today sample_dir sample_pattern sample_name sample_out sample_fs)).
Proof.
  etransitivity; [apply surjective_pairing |].
  rewrite sample_run_result. reflexivity.
Qed.

Lemma primary_output_contents_witness :
  mozc_to_rime no_kana no_kana ascii_lower None sample_realpath sample_glob
    posix_join sample_today sample_dir sample_pattern sample_name sample_out sample_fs
  = (Ok (mkStats 4 1 1 1, 1%Z, of_string "skipped.tsv"),
     snd (mozc_to_rime no_kana no_kana ascii_lower None sample_realpath sample_glob
            posix_join sample_today sample_dir sample_pattern sample_name sample_out
            sample_fs)) /\
  sample_realpath sample_out <> sample_realpath SKIPPED_TSV /\
  file_text sample_realpath
    (snd (mozc_to_rime no_kana no_kana ascii_lower None sample_realpath sample_glob
            posix_join sample_today sample_dir sample_pattern sample_name sample_out
            sample_fs))
    sample_out
  = Some (header sample_name (of_string "2026.11.06")
          ++ [0x5B66; 0x6821] ++ [TAB] ++ of_string "gakkou" ++ [LF]).
Proof.
  assert (Hne : sample_realpath sample_out <> sample_realpath SKIPPED_TSV)
    by (vm_compute; discriminate).
  split; [exact sample_run_ok |]. split; [exact Hne |].
  destruct (primary_output_contents _ _ _ _ _ _ _ _ _ _ _ _ _ _ _ sample_run_ok Hne)
    as (_ & _ & _ & _ & Hl & _).
  rewrite Hl. vm_compute. reflexivity.
Defined.

(** C8, as stated: with the output path [./skipped.tsv], which is not
    the string [skipped.tsv] but names the same file, the run ends
    normally and the file holds the line of the skipped entry, not the
    header and the entry. *)
Lemma primary_output_overwritten :
  dot_skipped <> SKIPPED_TSV /\
  sample_realpath dot_skipped = sample_realpath SKIPPED_TSV /\
  fst (mozc_to_rime no_kana no_kana ascii_lower None sample_realpath sample_glob
         posix_join sample_today sample_dir sample_pattern sample_name dot_skipped
         sample_fs)
  = Ok (mkStats 4 1 1 1, 1%Z, of_string "skipped.tsv") /\
  file_text sample_realpath
    (snd (mozc_to_rime no_kana no_kana ascii_lower None sample_realpath sample_glob
            posix_join sample_today sample_dir sample_pattern sample_name dot_skipped
            sample_fs))
    dot_skipped
  = Some ([0x5B66] ++ [TAB] ++ [0x21] ++ [TAB] ++ REASON ++ [LF]) /\
  [0x5B66] ++ [TAB] ++ [0x21] ++ [TAB] ++ REASON ++ [LF]
  <> header sample_name (of_string "2026.11.06")
     ++ [0x5B66; 0x6821] ++ [TAB] ++ of_string "gakkou" ++ [LF].
Proof.
  split; [vm_compute; discriminate |].
  split; [reflexivity |].
  split; [vm_compute; reflexivity |].
  split; [vm_compute; reflexivity |].
  vm_compute. discriminate.
Qed.

Lemma diagnostic_file_contents_witness :
  file_text sample_realpath sample_fs (of_string "skipped.tsv")
  = Some (of_string "old") /\
  mozc_to_rime no_kana no_kana ascii_lower None sample_realpath sample_glob
    posix_join sample_today sample_dir sample_pattern sample_name sample_out sample_fs
  = (Ok (mkStats 4 1 1 1, 1%Z, of_string "skipped.tsv"),
     snd (mozc_to_rime no_kana no_kana ascii_lower None sample_realpath sample_glob
            posix_join sample_today sample_dir sample_pattern sample_name sample_out
            sample_fs)) /\
  file_text sample_realpath
    (snd (mozc_to_rime no_kana no_kana ascii_lower None sample_realpath sample_glob
            posix_join sample_today sample_dir sample_pattern sample_name sample_out
            sample_fs))
    (of_string "skipped.tsv")
  = Some ([0x5B66] ++ [TAB] ++ [0x21] ++ [TAB] ++ REASON ++ [LF]).
Proof.
  split; [vm_compute; reflexivity |].
  split; [exact sample_run_ok |].
  destruct (diagnostic_file_contents _ _ _ _ _ _ _ _ _ _ _ _ _ _ _ sample_run_ok)
    as (_ & Hl & _).
  rewrite Hl. vm_compute. reflexivity.
Defined.

(** C4, as stated: the glob matches a path and the run raises
    [FileNotFoundError] all the same, once because the matched path is
    a link to a file that does not exist, once because the output path
    is in a directory that does not exist. *)
Lemma not_found_with_a_match :
  link_glob ∅ (posix_join sample_dir sample_pattern) = [of_string "d/link.txt"] /\
  mozc_to_rime no_kana no_kana ascii_lower None sample_realpath link_glob posix_join
    sample_today sample_dir sample_pattern sample_name sample_out ∅
  = (Raise FileNotFoundError, ∅) /\
  sample_glob no_dir_fs (posix_join sample_dir sample_pattern)
  = [of_string "d/b.txt"; of_string "d/a.txt"] /\
  mozc_to_rime no_kana no_kana ascii_lower None sample_realpath sample_glob posix_join
    sample_today sample_dir sample_pattern sample_name no_dir_out no_dir_fs
  = (Raise FileNotFoundError, no_dir_fs).
Proof. repeat split; vm_compute; reflexivity. Qed.

(** C6, as stated: a backend interrupted from the keyboard raises what
    [except Exception] does not catch; the engine lets it through and
    the run ends with it, having written nothing, where the run without
    the backend ends normally. *)
Lemma secondary_interrupt_propagates :
  is_Exception KeyboardInterrupt = false /\
  pykakasi_convert_body interrupted_kakasi (r_kata_of no_kana [0x21])
  = Raise KeyboardInterrupt /\
  convert_reading_to_romaji no_kana no_kana ascii_lower (Some interrupted_kakasi)
    [0x21]
  = Raise KeyboardInterrupt /\
  mozc_to_rime no_kana no_kana ascii_lower (Some interrupted_kakasi) sample_realpath
    sample_glob posix_join sample_today sample_dir sample_pattern sample_name
    sample_out sample_fs
  = (Raise KeyboardInterrupt, sample_fs) /\
  fst (mozc_to_rime no_kana no_kana ascii_lower None sample_realpath sample_glob
         posix_join sample_today sample_dir sample_pattern sample_name sample_out
         sample_fs)
  = Ok (mkStats 4 1 1 1, 1%Z, of_string "skipped.tsv").
Proof. repeat split; vm_compute; reflexivity. Qed.

(** * Further properties of the code *)

(** ** The two classifiers *)

Lemma in_jp_class (c : N) :
  Py.in_class JP_CHAR_CLASS c = true
  <-> (0x3040 <= c <= 0x30FF \/ 0x4E00 <= c <= 0x9FFF).
Proof.
  unfold Py.in_class, JP_CHAR_CLASS; simpl.
  split.
  - cases_on_comparisons.
  - intros [H | H]; cases_on_comparisons.
Qed.

(** X1: [has_japanese] holds exactly of the words with a character in
    U+3040..U+30FF or in U+4E00..U+9FFF; so a word whose characters are
    all below U+3040 (ASCII letters, digits, punctuation, Latin and Greek
    letters, CJK punctuation) never qualifies. *)
Theorem has_japanese_iff (word : str) :
  (has_japanese word = true
   <-> exists c, In c word /\ (0x3040 <= c <= 0x30FF \/ 0x4E00 <= c <= 0x9FFF)) /\
  (Forall (fun c => c < 0x3040) word -> has_japanese word = false).
Proof.
  assert (Hiff : has_japanese word = true
                 <-> exists c, In c word
                               /\ (0x3040 <= c <= 0x30FF \/ 0x4E00 <= c <= 0x9FFF)).
  { unfold has_japanese, Py.search_class. rewrite existsb_exists.
    split; intros (c & Hin & Hc); exists c; (split; [exact Hin |]);
      apply in_jp_class; exact Hc. }
  split; [exact Hiff |].
  intros Hall. apply not_true_is_false. intros E.
  apply Hiff in E as (c & Hin & Hc).
  rewrite Forall_forall in Hall. apply list_elem_of_In, Hall in Hin. lia.
Qed.

(** X2: [is_ascii_romaji] holds exactly of the non-empty strings made
    of [a-z] and [0-9] only (a final newline, a space or an uppercase
    letter makes it fail), and no string it accepts contains kana or
    kanji. *)
Theorem is_ascii_romaji_iff (s : str) :
  (is_ascii_romaji s = true
   <-> s <> [] /\ forall c, In c s -> 97 <= c <= 122 \/ 48 <= c <= 57) /\
  (is_ascii_romaji s = true -> has_japanese s = false).
Proof.
  assert (Hiff : is_ascii_romaji s = true
                 <-> s <> [] /\ forall c, In c s -> 97 <= c <= 122 \/ 48 <= c <= 57).
  { unfold is_ascii_romaji, Py.fullmatch_plus.
    rewrite andb_true_iff, truthy_true, forallb_forall.
    split; intros [Hne Hall]; (split; [exact Hne |]); intros c Hc;
      apply in_ascii_class, Hall, Hc. }
  split; [exact Hiff |].
  intros H. apply Hiff in H as [_ Hall].
  apply not_true_is_false. intros E.
  unfold has_japanese, Py.search_class in E.
  apply existsb_exists in E as (c & Hin & Hc).
  apply in_jp_class in Hc. apply Hall in Hin. lia.
Qed.

(** ** The backend wrapper *)

Lemma rmap_list_hepburn (items : list (gmap string str)) :
  rmap_list (fun item : gmap string str =>
               match item !! "hepburn"%string with
               | Some h => Ok h
               | None => Raise KeyError
               end) items
  = if forallb (fun item : gmap string str =>
                  match item !! "hepburn"%string with
                  | Some _ => true
                  | None => false
                  end) items
    then Ok (map (fun item : gmap string str =>
                    match item !! "hepburn"%string with
                    | Some h => h
                    | None => []
                    end) items)
    else Raise KeyError.
Proof.
  induction items as [| item items IH]; [reflexivity |].
  simpl. destruct (item !! "hepburn"%string) as [h |]; simpl; [| reflexivity].
  rewrite IH. destruct (forallb _ items); reflexivity.
Qed.

(** X3: [pykakasi_convert] passes on an exception of the backend's
    [convert]; otherwise it returns the concatenation, in order, of the
    ["hepburn"] values of the items when every item has that key (the
    empty string for no item), and raises [KeyError] as soon as one item
    lacks it. *)
Theorem pykakasi_convert_result (k : kakasi) (text : str) :
  pykakasi_convert_body k text
  = match k text with
    | Raise e => Raise e
    | Ok items =>
        if forallb (fun item : gmap string str =>
                      match item !! "hepburn"%string with
                      | Some _ => true
                      | None => false
                      end) items
        then Ok (concat (map (fun item : gmap string str =>
                                match item !! "hepburn"%string with
                                | Some h => h
                                | None => []
                                end) items))
        else Raise KeyError
    end.
Proof.
  unfold pykakasi_convert_body, rbind.
  destruct (k text) as [items | e]; [| reflexivity].
  rewrite rmap_list_hepburn. destruct (forallb _ items); reflexivity.
Qed.

(** ** The engine's result *)

Lemma backend_fails_iff (lower : str -> str) (k : kakasi) (r_kata : str) :
  backend_fails lower k r_kata
  <-> match r_py_clean_of lower (pykakasi_convert_body k) r_kata with
      | Ok s => s = []
      | Raise e => is_Exception e = true
      end.
Proof.
  split; [apply backend_fails_no_key |].
  unfold backend_fails, r_py_clean_of, rbind.
  destruct (pykakasi_convert_body k r_kata) as [r_py | e]; simpl.
  - intros H. right. exists r_py. split; [reflexivity | exact H].
  - intros H. left. exists e. split; [reflexivity | exact H].
Qed.

(** X4: the engine returns the empty string, which makes the record a
    skipped one, exactly when the reading is empty, or the primary clean
    candidate is empty and there is no backend or the backend gives no
    key (it raises an exception that derives from [Exception], or its
    answer cleans to the empty string). The engine raises exactly when
    the reading is not empty, the primary clean candidate is empty and
    the backend raises an exception that does not derive from
    [Exception], which is the exception the engine raises. *)
Theorem engine_empty_iff (hira2kata kana2alphabet lower : str -> str)
    (_k : option kakasi) (reading : str) :
  (convert_reading_to_romaji hira2kata kana2alphabet lower _k reading = Ok []
   <-> reading = [] \/
       (romaji_clean_of hira2kata kana2alphabet lower reading = [] /\
        match _k with
        | None => True
        | Some k => backend_fails lower k (r_kata_of hira2kata reading)
        end)) /\
  (forall e : exn,
     convert_reading_to_romaji hira2kata kana2alphabet lower _k reading = Raise e
     <-> reading <> [] /\
         romaji_clean_of hira2kata kana2alphabet lower reading = [] /\
         is_Exception e = false /\
         exists k, _k = Some k /\
                   pykakasi_convert_body k (r_kata_of hira2kata reading) = Raise e).
Proof.
  unfold convert_reading_to_romaji. rewrite engine_calls_closed_form.
  destruct (truthy reading) eqn:Et; simpl.
  2: { apply truthy_false in Et. split; [split; auto |].
       intros e. split; [discriminate | intros [H _]; congruence]. }
  apply truthy_true in Et.
  destruct (truthy (romaji_clean_of hira2kata kana2alphabet lower reading)) eqn:Ec;
    simpl.
  { apply truthy_true in Ec. split.
    - split; [congruence |]. intros [H | [H _]]; congruence.
    - intros e. split; [discriminate | intros (_ & H & _); congruence]. }
  apply truthy_false in Ec. rewrite !Ec. destruct _k as [k |]; simpl.
  2: { split; [split; auto |].
       intros e. split; [discriminate | intros (_ & _ & _ & k & [=] & _)]. }
  rewrite backend_fails_iff. unfold r_py_clean_of, rbind.
  destruct (pykakasi_convert_body k (r_kata_of hira2kata reading))
    as [r_py | e'] eqn:Eb.
  - split.
    + destruct (Py.sub_not_class ASCII_CLASS (lower (Py.sub_spaces r_py)))
        as [| y s]; simpl.
      * split; auto.
      * split; [discriminate |]. intros [H | [_ H]]; congruence.
    + intros e. split; [discriminate |]. intros (_ & _ & _ & k' & [= <-] & H).
      congruence.
  - destruct (is_Exception e') eqn:Ee; split.
    + split; auto.
    + intros e. split; [discriminate |]. intros (_ & _ & He & k' & [= <-] & H).
      congruence.
    + split; [discriminate |]. intros [H | [_ H]]; congruence.
    + intros e. split.
      * intros [= <-]. repeat split; try assumption.
        exists k. split; [reflexivity | exact Eb].
      * intros (_ & _ & _ & k' & [= <-] & H). congruence.
Qed.

(** X5: when the primary clean candidate is empty and the backend
    answers with text that does not clean to the empty string, the engine
    returns that text with its whitespace removed, lowercased and
    stripped of every character outside [a-z0-9]. *)
Theorem secondary_backend_supplies_key (hira2kata kana2alphabet lower : str -> str)
    (k : kakasi) (reading r_py : str) :
  reading <> [] ->
  romaji_clean_of hira2kata kana2alphabet lower reading = [] ->
  pykakasi_convert_body k (r_kata_of hira2kata reading) = Ok r_py ->
  Py.sub_not_class ASCII_CLASS (lower (Py.sub_spaces r_py)) <> [] ->
  convert_reading_to_romaji hira2kata kana2alphabet lower (Some k) reading
  = Ok (Py.sub_not_class ASCII_CLASS (lower (Py.sub_spaces r_py))).
Proof.
  intros Hr Hc Hk Hne.
  unfold convert_reading_to_romaji. rewrite engine_calls_closed_form.
  apply truthy_true in Hr. rewrite Hr, Hc. simpl.
  unfold r_py_clean_of, rbind. rewrite Hk.
  apply truthy_true in Hne. rewrite Hne. reflexivity.
Qed.

Lemma secondary_backend_supplies_key_witness :
  [0x21] <> [] /\
  romaji_clean_of no_kana no_kana ascii_lower [0x21] = [] /\
  pykakasi_convert_body answering_kakasi (r_kata_of no_kana [0x21])
  = Ok (of_string "Gakkou ") /\
  convert_reading_to_romaji no_kana no_kana ascii_lower (Some answering_kakasi) [0x21]
  = Ok (of_string "gakkou").
Proof.
  assert (H1 : [0x21] <> @nil N) by discriminate.
  assert (H2 : romaji_clean_of no_kana no_kana ascii_lower [0x21] = [])
    by reflexivity.
  assert (H3 : pykakasi_convert_body answering_kakasi (r_kata_of no_kana [0x21])
               = Ok (of_string "Gakkou ")) by reflexivity.
  assert (H4 : Py.sub_not_class ASCII_CLASS
                 (ascii_lower (Py.sub_spaces (of_string "Gakkou "))) <> [])
    by (vm_compute; discriminate).
  split; [exact H1 |]. split; [exact H2 |]. split; [exact H3 |].
  exact (secondary_backend_supplies_key no_kana no_kana ascii_lower answering_kakasi
           [0x21] (of_string "Gakkou ") H1 H2 H3 H4).
Defined.

(** X6: when the primary clean candidate of a non-empty reading is not
    empty, the engine returns it whatever the backend is or would
    answer: the secondary backend never overrides the primary path. *)
Theorem primary_candidate_wins (hira2kata kana2alphabet lower : str -> str)
    (_k : option kakasi) (reading : str) :
  reading <> [] ->
  romaji_clean_of hira2kata kana2alphabet lower reading <> [] ->
  convert_reading_to_romaji hira2kata kana2alphabet lower _k reading
  = Ok (romaji_clean_of hira2kata kana2alphabet lower reading).
Proof.
  intros Hr Hc. unfold convert_reading_to_romaji.
  rewrite engine_calls_closed_form.
  apply truthy_true in Hr. apply truthy_true in Hc. rewrite Hr, Hc. reflexivity.
Qed.

Lemma primary_candidate_wins_witness :
  of_string "Ga kkou" <> [] /\
  romaji_clean_of no_kana no_kana ascii_lower (of_string "Ga kkou") <> [] /\
  convert_reading_to_romaji no_kana no_kana ascii_lower (Some failing_kakasi)
    (of_string "Ga kkou")
  = Ok (of_string "gakkou").
Proof.
  assert (H1 : of_string "Ga kkou" <> []) by (vm_compute; discriminate).
  assert (H2 : romaji_clean_of no_kana no_kana ascii_lower (of_string "Ga kkou") <> [])
    by (vm_compute; discriminate).
  split; [exact H1 |]. split; [exact H2 |].
  exact (primary_candidate_wins no_kana no_kana ascii_lower (Some failing_kakasi)
           (of_string "Ga kkou") H1 H2).
Defined.

(** ** Blank lines and comments *)

(** X7: a line that is empty once stripped, or whose first character
    once stripped is [#] (a comment, indented or not, and also a record
    whose reading starts with [#]), only increments [processed_lines]:
    no other counter moves and no entry is appended. *)
Theorem blank_or_comment_line_ignored (hira2kata kana2alphabet lower : str -> str)
    (_k : option kakasi) (line : str) (w : World) :
  match Py.strip line with [] => True | c :: _ => c = HASH end ->
  process_line hira2kata kana2alphabet lower _k line w
  = (Ok tt, push incr_processed_lines w).
Proof.
  intros H. rewrite process_line_cases. unfold classify.
  destruct (Py.strip line) as [| c s]; [reflexivity |].
  subst c.
  assert (Py.startswith (HASH :: s) [HASH] = true) as -> by (destruct s; reflexivity).
  rewrite orb_true_r. reflexivity.
Qed.

Lemma blank_or_comment_line_ignored_witness :
  match Py.strip comment_line with [] => True | c :: _ => c = HASH end /\
  process_line no_kana no_kana ascii_lower None comment_line init_world
  = (Ok tt, push incr_processed_lines init_world).
Proof.
  assert (H : match Py.strip comment_line with [] => True | c :: _ => c = HASH end)
    by reflexivity.
  split; [exact H |].
  exact (blank_or_comment_line_ignored no_kana no_kana ascii_lower None
           comment_line init_world H).
Defined.

(** ** Facts on the string operations *)

Lemma lstrip_Forall (P : N -> Prop) (s : str) :
  Forall P s -> Forall P (Py.lstrip s).
Proof.
  induction 1 as [| c s Hc Hs IH]; simpl; [constructor |].
  destruct (Py.isspace c); [exact IH | constructor; assumption].
Qed.

Lemma strip_Forall (P : N -> Prop) (s : str) :
  Forall P s -> Forall P (Py.strip s).
Proof.
  intros H. unfold Py.strip, Py.rstrip.
  apply Forall_rev, lstrip_Forall, Forall_rev, lstrip_Forall, H.
Qed.

Lemma lstrip_id (c : N) (s : str) :
  Py.isspace c = false -> Py.lstrip (c :: s) = c :: s.
Proof. intros H. simpl. rewrite H. reflexivity. Qed.

Lemma strip_idem (s : str) : Py.strip (Py.strip s) = Py.strip s.
Proof.
  destruct (Py.strip s) as [| c t] eqn:E; [reflexivity |].
  pose proof (strip_head _ _ _ E) as Hc.
  unfold Py.strip in *. rewrite (lstrip_id c t Hc).
  unfold Py.rstrip in *.
  destruct (Py.lstrip (rev (Py.lstrip s))) as [| x u] eqn:Ex; [discriminate E |].
  pose proof (lstrip_head _ _ _ Ex) as Hx.
  rewrite <- E, rev_involutive, (lstrip_id x u Hx). reflexivity.
Qed.

Lemma split_not_nil (sep : N) (s : str) : Py.split sep s <> [].
Proof.
  destruct s as [| c s]; simpl; [discriminate |].
  destruct (c =? sep); [discriminate |].
  destruct (Py.split sep s); discriminate.
Qed.

Lemma split_Forall (P : N -> Prop) (sep : N) (s : str) :
  Forall P s -> Forall (Forall P) (Py.split sep s).
Proof.
  induction 1 as [| c s Hc Hs IH]; simpl; [repeat constructor |].
  destruct (c =? sep); [constructor; [constructor | exact IH] |].
  destruct (Py.split sep s) as [| p ps]; [repeat constructor; exact Hc |].
  apply Forall_cons_1 in IH as [Hp Hps].
  constructor; [constructor; assumption | exact Hps].
Qed.

Lemma split_no_sep (sep : N) (s : str) :
  Forall (fun p => ~ In sep p) (Py.split sep s).
Proof.
  induction s as [| c s IH]; simpl; [constructor; [intros [] | constructor] |].
  destruct (N.eqb_spec c sep) as [-> | Hne];
    [constructor; [intros [] | exact IH] |].
  destruct (Py.split sep s) as [| p ps]; [constructor; [| constructor] |].
  - intros [H | []]. congruence.
  - apply Forall_cons_1 in IH as [Hp Hps].
    constructor; [| exact Hps]. intros [H | H]; [congruence | exact (Hp H)].
Qed.

(** ** What a line that reaches the record stage is made of *)

Section RecordStage.

Variable hira2kata : str -> str.
Variable kana2alphabet : str -> str.
Variable lower : str -> str.
Variable _k : option kakasi.

Lemma classify_stage (line : str) :
  classify hira2kata kana2alphabet lower _k line = Ignored \/
  classify hira2kata kana2alphabet lower _k line = Crashed \/
  exists r0 f,
    Py.strip line <> [] /\
    nth_error (Py.split TAB (Py.strip line)) 0 = Some r0 /\
    nth_error (Py.split TAB (Py.strip line)) 4 = Some f /\
    classify hira2kata kana2alphabet lower _k line
    = classify_record hira2kata kana2alphabet lower _k (Py.strip r0) (Py.strip f).
Proof.
  unfold classify.
  destruct (truthy (Py.strip line)) eqn:Et; cbn [negb orb]; [| left; reflexivity].
  apply truthy_true in Et.
  destruct (Py.startswith (Py.strip line) [HASH]); [left; reflexivity |].
  destruct (length (Py.split TAB (Py.strip line)) <? 2)%nat; [left; reflexivity |].
  destruct (nth_error (Py.split TAB (Py.strip line)) 0) as [r0 |],
           (nth_error (Py.split TAB (Py.strip line)) 4) as [f |];
    try (right; left; reflexivity).
  right; right. exists r0, f.
  split; [exact Et |]. split; [reflexivity |]. split; reflexivity.
Qed.

Lemma classify_record_converted (reading word w romaji : str) :
  classify_record hira2kata kana2alphabet lower _k reading word = Converted w romaji ->
  w = word /\ has_japanese word = true /\
  convert_reading_to_romaji hira2kata kana2alphabet lower _k reading = Ok romaji /\
  romaji <> [].
Proof.
  unfold classify_record.
  destruct (truthy word); simpl; [| discriminate].
  destruct (has_japanese word); simpl; [| discriminate].
  destruct (convert_reading_to_romaji _ _ _ _ reading) as [key | e];
    [| discriminate].
  destruct (truthy key) eqn:E; simpl; [| discriminate].
  intros [= <- <-]. apply truthy_true in E. auto.
Qed.

Lemma classify_record_skipped (reading word w r : str) :
  classify_record hira2kata kana2alphabet lower _k reading word = Skipped w r ->
  w = word /\ r = reading /\ has_japanese word = true /\
  convert_reading_to_romaji hira2kata kana2alphabet lower _k reading = Ok [].
Proof.
  unfold classify_record.
  destruct (truthy word); simpl; [| discriminate].
  destruct (has_japanese word); simpl; [| discriminate].
  destruct (convert_reading_to_romaji _ _ _ _ reading) as [key | e];
    [| discriminate].
  destruct (truthy key) eqn:E; simpl; [discriminate |].
  intros [= <- <-]. apply truthy_false in E. subst key. auto.
Qed.

Lemma field_no_tab (line f : str) (i : nat) :
  nth_error (Py.split TAB (Py.strip line)) i = Some f -> ~ In TAB (Py.strip f).
Proof.
  intros H. apply nth_error_In in H.
  pose proof (split_no_sep TAB (Py.strip line)) as Hall.
  rewrite Forall_forall in Hall. apply list_elem_of_In, Hall in H.
  assert (Hf : Forall (fun c => c <> TAB) f).
  { apply Forall_forall. intros c Hc ->. apply H, list_elem_of_In, Hc. }
  apply (strip_Forall _ f) in Hf. rewrite Forall_forall in Hf.
  intros Hin. apply list_elem_of_In in Hin. exact (Hf _ Hin eq_refl).
Qed.

Lemma entry_of_line_ok (line : str) :
  Forall entry_ok (entry_of_line hira2kata kana2alphabet lower _k line).
Proof.
  unfold entry_of_line.
  destruct (classify_stage line) as [E | [E | (r0 & f & Hne & H0 & H4 & E)]];
    rewrite E; try constructor.
  destruct (classify_record _ _ _ _ (Py.strip r0) (Py.strip f))
    as [| | e | | | w romaji] eqn:Ec; try constructor; [| constructor].
  apply classify_record_converted in Ec as (-> & Hj & He & Hr).
  unfold entry_ok. simpl. repeat split.
  - exact Hj.
  - apply strip_idem.
  - eapply field_no_tab, H4.
  - exact Hr.
  - eapply engine_key_chars, He.
Qed.

Lemma skipped_of_line_ok (line : str) :
  Forall (fun e : str * str * str =>
            has_japanese (fst (fst e)) = true /\
            snd (fst e) <> [] /\
            convert_reading_to_romaji hira2kata kana2alphabet lower _k (snd (fst e))
            = Ok [] /\
            snd e = REASON)
         (skipped_of_line hira2kata kana2alphabet lower _k line).
Proof.
  unfold skipped_of_line.
  destruct (classify_stage line) as [E | [E | (r0 & f & Hne & H0 & H4 & E)]];
    rewrite E; try constructor.
  destruct (classify_record _ _ _ _ (Py.strip r0) (Py.strip f))
    as [| | e | | w r |] eqn:Ec; try constructor; [| constructor].
  apply classify_record_skipped in Ec as (-> & -> & Hj & He).
  simpl. repeat split; auto.
  eapply reading_not_empty; eassumption.
Qed.

End RecordStage.

(** ** Invariants of a pass *)

Section PassInvariant.

Variable hira2kata : str -> str.
Variable kana2alphabet : str -> str.
Variable lower : str -> str.
Variable _k : option kakasi.
Variable realpath : str -> str.
Variable glob_glob : FS -> str -> list str.
Variable os_path_join : str -> str -> str.

(** A property [L] of the lines a file yields, and a property [P] of the
    world that the loop body keeps on such lines. *)
Variable L : str -> Prop.
Variable P : World -> Prop.
Hypothesis L_readlines : forall text : str, Forall L (Py.readlines text).
Hypothesis P_line :
  forall (line : str) (w : World),
    L line -> P w -> P (snd (process_line hira2kata kana2alphabet lower _k line w)).

Lemma process_lines_keeps (lines : list str) (w : World) :
  Forall L lines -> P w ->
  P (snd (process_lines hira2kata kana2alphabet lower _k lines w)).
Proof.
  intros HL. revert w.
  induction HL as [| line rest Hl Hrest IH]; intros w Hw; [exact Hw |].
  simpl. unfold bind.
  pose proof (P_line line w Hl Hw) as H1.
  destruct (process_line hira2kata kana2alphabet lower _k line w) as [[[] | e] w1];
    simpl in *; auto.
Qed.

Lemma process_files_keeps (fs : FS) (files : list str) (w : World) :
  P w -> P (snd (process_files hira2kata kana2alphabet lower _k realpath fs files w)).
Proof.
  revert w. induction files as [| fp rest IH]; intros w Hw; [exact Hw |].
  simpl. unfold bind.
  assert (H1 : P (snd (process_file hira2kata kana2alphabet lower _k realpath fs fp w))).
  { unfold process_file.
    destruct (open_read realpath fs fp) as [text |]; [| exact Hw].
    apply process_lines_keeps; [apply L_readlines | exact Hw]. }
  destruct (process_file hira2kata kana2alphabet lower _k realpath fs fp w)
      as [[[] | e] w1];
    simpl in *; auto.
Qed.

Lemma aggregate_keeps (mozc_dir pattern : str) (fs : FS) :
  P init_world ->
  P (snd (aggregate hira2kata kana2alphabet lower _k realpath glob_glob os_path_join
            mozc_dir pattern fs)).
Proof.
  intros H0. unfold aggregate.
  destruct (negb (truthy (Py.sorted _))); [exact H0 |].
  apply process_files_keeps, H0.
Qed.

End PassInvariant.

Lemma readlines_any (text : str) : Forall (fun _ : str => True) (Py.readlines text).
Proof. apply Forall_forall. intros; exact I. Qed.

Lemma apply_verdict_tally (v : verdict) (w : World) :
  tally_ok (cur w) -> tally_ok (cur (snd (apply_verdict v w))).
Proof.
  unfold tally_ok. intros [Hc Hs].
  destruct v; simpl; rewrite ?length_app; simpl; split; lia.
Qed.

Lemma mozc_to_rime_returns (hira2kata kana2alphabet lower : str -> str)
    (_k : option kakasi) (realpath : str -> str) (glob_glob : FS -> str -> list str)
    (os_path_join : str -> str -> str) (today : date)
    (mozc_dir pattern dict_name output_file : str) (fs fs' : FS)
    (r : Stats * Z * str) :
  mozc_to_rime hira2kata kana2alphabet lower _k realpath glob_glob os_path_join today
    mozc_dir pattern dict_name output_file fs = (Ok r, fs') ->
  fst (aggregate hira2kata kana2alphabet lower _k realpath glob_glob os_path_join
         mozc_dir pattern fs) = Ok tt /\
  let w := snd (aggregate hira2kata kana2alphabet lower _k realpath glob_glob os_path_join
                  mozc_dir pattern fs) in
  r = (stats (cur w), Z.of_nat (length (results (cur w))), SKIPPED_TSV).
Proof.
  unfold mozc_to_rime.
  destruct (aggregate _ _ _ _ _ _ _ mozc_dir pattern fs) as [[[] | e] w];
    cbn [fst snd]; [| discriminate].
  cbv zeta.
  destruct (write_file realpath output_file _ fs) as [fs1 | e]; [| discriminate].
  destruct (write_file realpath SKIPPED_TSV _ fs1) as [fs2 | e]; [| discriminate].
  intros [= <- _]. split; reflexivity.
Qed.

Section PassFacts.

Variable hira2kata : str -> str.
Variable kana2alphabet : str -> str.
Variable lower : str -> str.
Variable _k : option kakasi.
Variable realpath : str -> str.
Variable glob_glob : FS -> str -> list str.
Variable os_path_join : str -> str -> str.
Variable today : date.

(** X8: whatever the input and however the pass ends, every entry of
    [results] has a headword with kana or kanji, stripped of surrounding
    whitespace and free of tabs, and a key that is not empty and made of
    [a-z0-9] only. *)
Theorem results_are_well_formed (mozc_dir pattern : str) (fs : FS) :
  Forall (fun e : str * str =>
            has_japanese (fst e) = true /\
            Py.strip (fst e) = fst e /\
            ~ In TAB (fst e) /\
            snd e <> [] /\
            Forall (fun c => 97 <= c <= 122 \/ 48 <= c <= 57) (snd e))
         (results (cur (snd (aggregate hira2kata kana2alphabet lower _k realpath glob_glob
                               os_path_join mozc_dir pattern fs)))).
Proof.
  apply (aggregate_keeps hira2kata kana2alphabet lower _k realpath glob_glob os_path_join
           (fun _ => True) (fun w => Forall entry_ok (results (cur w))));
    [apply readlines_any | | constructor].
  intros line w _ Hw.
  destruct (process_line_lists hira2kata kana2alphabet lower _k line w) as [-> _].
  apply Forall_app. split; [exact Hw | apply entry_of_line_ok].
Qed.

(** X9: whatever the input and however the pass ends, every skipped
    entry has a headword with kana or kanji, a reading that is not empty
    (the empty reading never reaches the engine) and for which the engine
    returns the empty string, and the reason literal of the source. *)
Theorem skipped_entries_are_well_formed (mozc_dir pattern : str) (fs : FS) :
  Forall (fun e : str * str * str =>
            has_japanese (fst (fst e)) = true /\
            snd (fst e) <> [] /\
            convert_reading_to_romaji hira2kata kana2alphabet lower _k (snd (fst e))
            = Ok [] /\
            snd e = REASON)
         (skipped_entries
            (cur (snd (aggregate hira2kata kana2alphabet lower _k realpath glob_glob
                         os_path_join mozc_dir pattern fs)))).
Proof.
  apply (aggregate_keeps hira2kata kana2alphabet lower _k realpath glob_glob os_path_join
           (fun _ => True)
           (fun w => Forall _ (skipped_entries (cur w))));
    [apply readlines_any | | constructor].
  intros line w _ Hw.
  destruct (process_line_lists hira2kata kana2alphabet lower _k line w) as [_ ->].
  apply Forall_app. split; [exact Hw | apply skipped_of_line_ok].
Qed.

Lemma aggregate_tally (mozc_dir pattern : str) (fs : FS) :
  tally_ok (cur (snd (aggregate hira2kata kana2alphabet lower _k realpath glob_glob
                        os_path_join mozc_dir pattern fs))).
Proof.
  apply (aggregate_keeps hira2kata kana2alphabet lower _k realpath glob_glob os_path_join
           (fun _ => True) (fun w => tally_ok (cur w)));
    [apply readlines_any | | split; reflexivity].
  intros line w _ Hw. rewrite process_line_cases.
  apply apply_verdict_tally, Hw.
Qed.

Lemma run_total_is_converted (mozc_dir pattern dict_name output_file : str)
    (fs fs' : FS) (r : Stats * Z * str) :
  mozc_to_rime hira2kata kana2alphabet lower _k realpath glob_glob os_path_join today
    mozc_dir pattern dict_name output_file fs = (Ok r, fs') ->
  snd (fst r) = converted (fst (fst r)).
Proof.
  intros Hrun. apply mozc_to_rime_returns in Hrun as [_ ->]. simpl.
  destruct (aggregate_tally mozc_dir pattern fs) as [Hc _]. symmetry. exact Hc.
Qed.

(** X10: when a pass ends, by the end of the files or by an exception,
    [converted] is the length of [results] and [skipped] the length of
    the skipped list; so the count of written entries that a successful
    run returns is always its counter [converted]. *)
Theorem counters_match_lists (mozc_dir pattern : str) (fs : FS) :
  (let a := cur (snd (aggregate hira2kata kana2alphabet lower _k realpath glob_glob
                        os_path_join mozc_dir pattern fs)) in
   converted (stats a) = Z.of_nat (length (results a)) /\
   skipped (stats a) = Z.of_nat (length (skipped_entries a))) /\
  (forall (dict_name output_file : str) (fs' : FS) (r : Stats * Z * str),
     mozc_to_rime hira2kata kana2alphabet lower _k realpath glob_glob os_path_join today
       mozc_dir pattern dict_name output_file fs = (Ok r, fs') ->
     snd (fst r) = converted (fst (fst r))).
Proof.
  split; [exact (aggregate_tally mozc_dir pattern fs) |].
  intros dict_name output_file fs' r. apply run_total_is_converted.
Qed.

End PassFacts.

(** ** What the counters count *)

Lemma stats_eta (s : Stats) :
  s = mkStats (processed_lines s) (converted s) (skipped s) (filtered_nonjp s).
Proof. destruct s; reflexivity. Qed.

Lemma add_counts_nil (s : Stats) : add_counts [] s = s.
Proof.
  unfold add_counts, count_verdicts. simpl. rewrite !Z.add_0_r. symmetry.
  apply stats_eta.
Qed.

Lemma add_counts_app (vs1 vs2 : list verdict) (s : Stats) :
  add_counts (vs1 ++ vs2) s = add_counts vs2 (add_counts vs1 s).
Proof.
  unfold add_counts, count_verdicts. simpl.
  rewrite !List.filter_app, !length_app, !Nat2Z.inj_add. f_equal; lia.
Qed.

Lemma apply_verdict_counts (v : verdict) (w : World) :
  stats (cur (snd (apply_verdict v w))) = add_counts [v] (stats (cur w)).
Proof.
  unfold add_counts, count_verdicts.
  destruct v; simpl; rewrite ?Z.add_0_r; reflexivity.
Qed.

Lemma verdicts_partition (vs : list verdict) :
  Forall (fun v => verdict_outcome v = Ok tt) vs ->
  Z.of_nat (length vs)
  = (count_verdicts is_converted vs + count_verdicts is_skipped vs
     + count_verdicts is_filtered vs + count_verdicts is_ignored vs)%Z.
Proof.
  unfold count_verdicts.
  induction 1 as [| v vs Hv Hvs IH]; [reflexivity |].
  destruct v; simpl in *; try discriminate; lia.
Qed.

Section CountFacts.

Variable hira2kata : str -> str.
Variable kana2alphabet : str -> str.
Variable lower : str -> str.
Variable _k : option kakasi.
Variable realpath : str -> str.
Variable glob_glob : FS -> str -> list str.
Variable os_path_join : str -> str -> str.
Variable today : date.

Lemma process_lines_counts (lines : list str) (w w' : World) :
  process_lines hira2kata kana2alphabet lower _k lines w = (Ok tt, w') ->
  stats (cur w')
  = add_counts (map (classify hira2kata kana2alphabet lower _k) lines) (stats (cur w))
  /\ Forall (fun v => verdict_outcome v = Ok tt)
            (map (classify hira2kata kana2alphabet lower _k) lines).
Proof.
  revert w. induction lines as [| line rest IH]; intros w; simpl.
  - intros [= <-]. rewrite add_counts_nil. split; [reflexivity | constructor].
  - unfold bind.
    pose proof (apply_verdict_counts (classify hira2kata kana2alphabet lower _k line) w)
      as Hc.
    rewrite <- process_line_cases in Hc.
    pose proof (process_line_cases hira2kata kana2alphabet lower _k line w) as Hv.
    destruct (process_line hira2kata kana2alphabet lower _k line w) as [[[] | e] w1];
      [| discriminate].
    intros H. apply IH in H as [Hs Hall].
    split.
    + change (classify hira2kata kana2alphabet lower _k line
              :: map (classify hira2kata kana2alphabet lower _k) rest)
        with ([classify hira2kata kana2alphabet lower _k line]
              ++ map (classify hira2kata kana2alphabet lower _k) rest).
      rewrite add_counts_app, Hs. simpl in Hc. rewrite Hc. reflexivity.
    + constructor; [| exact Hall].
      unfold apply_verdict in Hv. injection Hv as Hv _. symmetry. exact Hv.
Qed.

Lemma process_files_counts (fs : FS) (files : list str) (w w' : World) :
  process_files hira2kata kana2alphabet lower _k realpath fs files w = (Ok tt, w') ->
  stats (cur w')
  = add_counts (map (classify hira2kata kana2alphabet lower _k)
                    (flat_map (file_lines realpath fs) files)) (stats (cur w))
  /\ Forall (fun v => verdict_outcome v = Ok tt)
            (map (classify hira2kata kana2alphabet lower _k)
                 (flat_map (file_lines realpath fs) files)).
Proof.
  revert w. induction files as [| fp rest IH]; intros w; simpl.
  - intros [= <-]. rewrite add_counts_nil. split; [reflexivity | constructor].
  - unfold bind.
    destruct (process_file hira2kata kana2alphabet lower _k realpath fs fp w)
      as [[[] | e] w1] eqn:E; [| discriminate].
    assert (H1 : stats (cur w1)
                 = add_counts (map (classify hira2kata kana2alphabet lower _k)
                                   (file_lines realpath fs fp)) (stats (cur w))
                 /\ Forall (fun v => verdict_outcome v = Ok tt)
                           (map (classify hira2kata kana2alphabet lower _k)
                                (file_lines realpath fs fp))).
    { unfold process_file in E. unfold file_lines.
      destruct (open_read realpath fs fp);
        [apply process_lines_counts, E | discriminate E]. }
    destruct H1 as [Hs1 Hall1].
    intros H. apply IH in H as [Hs Hall].
    rewrite map_app, add_counts_app, <- Hs1. split; [exact Hs |].
    apply Forall_app. split; assumption.
Qed.

Lemma run_counts (mozc_dir pattern dict_name output_file : str)
    (fs fs' : FS) (r : Stats * Z * str) :
  mozc_to_rime hira2kata kana2alphabet lower _k realpath glob_glob os_path_join today
    mozc_dir pattern dict_name output_file fs = (Ok r, fs') ->
  let files := Py.sorted (glob_glob fs (os_path_join mozc_dir pattern)) in
  let lines := flat_map (file_lines realpath fs) files in
  let verdicts := map (classify hira2kata kana2alphabet lower _k) lines in
  let st := fst (fst r) in
  processed_lines st = Z.of_nat (length lines) /\
  converted st = count_verdicts is_converted verdicts /\
  skipped st = count_verdicts is_skipped verdicts /\
  filtered_nonjp st = count_verdicts is_filtered verdicts /\
  (processed_lines st
   = converted st + skipped st + filtered_nonjp st
     + count_verdicts is_ignored verdicts)%Z.
Proof.
  intros Hrun. apply mozc_to_rime_returns in Hrun as [Hok ->]. simpl.
  unfold aggregate in *.
  destruct (negb (truthy (Py.sorted (glob_glob fs (os_path_join mozc_dir pattern)))));
    [discriminate Hok |].
  destruct (process_files hira2kata kana2alphabet lower _k realpath fs _ init_world)
    as [[[] | e] w] eqn:E; [| discriminate Hok].
  apply process_files_counts in E as [Hs Hall]. simpl.
  rewrite Hs. unfold add_counts. simpl.
  pose proof (verdicts_partition _ Hall) as Hp.
  rewrite length_map in Hp |- *.
  repeat split; lia.
Qed.

(** X11: after a successful run, [processed_lines] is the number of
    physical lines of the matched files (blank lines, comments and a
    last line without newline included), [converted], [skipped] and
    [filtered_nonjp] are the numbers of lines that gave an entry, gave a
    skipped entry and had a headword without kana or kanji, and what
    [processed_lines] has beyond their sum is the number of lines passed
    over: blank, comment, of one field, or with an empty headword. *)
Theorem stats_count_the_lines (mozc_dir pattern dict_name output_file : str)
    (fs fs' : FS) (r : Stats * Z * str) :
  mozc_to_rime hira2kata kana2alphabet lower _k realpath glob_glob os_path_join today
    mozc_dir pattern dict_name output_file fs = (Ok r, fs') ->
  let files := Py.sorted (glob_glob fs (os_path_join mozc_dir pattern)) in
  let lines := flat_map (file_lines realpath fs) files in
  let verdicts := map (classify hira2kata kana2alphabet lower _k) lines in
  let st := fst (fst r) in
  processed_lines st = Z.of_nat (length lines) /\
  converted st = count_verdicts is_converted verdicts /\
  skipped st = count_verdicts is_skipped verdicts /\
  filtered_nonjp st = count_verdicts is_filtered verdicts /\
  (processed_lines st
   = converted st + skipped st + filtered_nonjp st
     + count_verdicts is_ignored verdicts)%Z.
Proof. apply run_counts. Qed.

End CountFacts.

Lemma stats_count_the_lines_witness :
  mozc_to_rime no_kana no_kana ascii_lower None sample_realpath
      sample_glob posix_join sample_today
    sample_dir sample_pattern sample_name sample_out sample_fs
  = (Ok (mkStats 4 1 1 1, 1%Z, of_string "skipped.tsv"),
     snd (mozc_to_rime no_kana no_kana ascii_lower None sample_realpath
         sample_glob posix_join
            sample_today sample_dir sample_pattern sample_name sample_out sample_fs)) /\
  length (flat_map (file_lines sample_realpath sample_fs)
            (Py.sorted (sample_glob sample_fs (posix_join sample_dir sample_pattern))))
  = 4%nat.
Proof.
  split; [exact sample_run_ok |].
  pose proof (proj1 (stats_count_the_lines no_kana no_kana ascii_lower None
      sample_realpath
                       sample_glob posix_join sample_today _ _ _ _ _ _ _
                       sample_run_ok)) as H.
  simpl fst in H. simpl processed_lines in H.
  apply Nat2Z.inj. symmetry. exact H.
Defined.

(** ** What a run writes *)

Section WriteFacts.

Variable hira2kata : str -> str.
Variable kana2alphabet : str -> str.
Variable lower : str -> str.
Variable _k : option kakasi.
Variable realpath : str -> str.
Variable glob_glob : FS -> str -> list str.
Variable os_path_join : str -> str -> str.
Variable today : date.

(** X12: a run that raises in the pass ([FileNotFoundError], the
    [IndexError] of a short line, an input file that cannot be opened,
    an exception the engine lets through) or on opening the output file
    leaves the file system as it found it. A run that raises on opening
    [skipped.tsv] has written the dictionary by then and leaves it: the
    header and the entries are in the output file, and nothing else has
    changed. A run that succeeds leaves both the output file and
    [skipped.tsv] in existence. In every case every other file, the
    input files among them, is as it was. *)
Theorem run_writes_only_its_two_files (mozc_dir pattern dict_name output_file : str)
    (fs : FS) :
  let run := mozc_to_rime hira2kata kana2alphabet lower _k realpath glob_glob
               os_path_join today mozc_dir pattern dict_name output_file fs in
  let pass := aggregate hira2kata kana2alphabet lower _k realpath glob_glob
                os_path_join mozc_dir pattern fs in
  let entries := entries_of_files hira2kata kana2alphabet lower _k realpath fs
                   (Py.sorted (glob_glob fs (os_path_join mozc_dir pattern))) in
  (forall e : exn, fst pass = Raise e -> run = (Raise e, fs)) /\
  (forall e : exn,
     fst run = Raise e ->
     snd run = fs \/
     (fst pass = Ok tt /\
      realpath SKIPPED_TSV <> realpath output_file /\
      (exists n, fs !! realpath SKIPPED_TSV = Some n /\ write_error n = Some e) /\
      exists n_out,
        node_text n_out
        = header dict_name (strftime_Ymd today) ++ concat (map entry_line entries) /\
        snd run = <[realpath output_file := n_out]> fs)) /\
  (forall r, fst run = Ok r ->
             is_Some (snd run !! realpath output_file) /\
             is_Some (snd run !! realpath SKIPPED_TSV)) /\
  (forall key : str,
     key <> realpath output_file -> key <> realpath SKIPPED_TSV ->
     snd run !! key = fs !! key).
Proof.
  cbv zeta.
  destruct (mozc_to_rime hira2kata kana2alphabet lower _k realpath glob_glob
              os_path_join today mozc_dir pattern dict_name output_file fs)
    as [[r | e] fs'] eqn:E; cbn [fst snd].
  - pose proof (mozc_to_rime_returns _ _ _ _ _ _ _ _ _ _ _ _ _ _ _ E) as [Hp _].
    apply mozc_to_rime_ok in E as (_ & _ & n1 & n2 & _ & _ & _ & _ & ->).
    split; [intros e He; congruence |].
    split; [discriminate |].
    split.
    + intros r' _. split.
      * destruct (decide (realpath output_file = realpath SKIPPED_TSV)) as [-> | Hne].
        -- rewrite lookup_insert_eq. eauto.
        -- rewrite lookup_insert_ne, lookup_insert_eq by congruence. eauto.
      * rewrite lookup_insert_eq. eauto.
    + intros key H1 H2. rewrite !lookup_insert_ne by congruence. reflexivity.
  - apply mozc_to_rime_raise_cases in E
      as [[Hp ->] | [(Hp & -> & Hn) | (Hp & Hne & Hn & n1 & T1 & ->)]].
    + split; [intros e' He'; congruence |].
      split; [intros e' _; left; reflexivity |].
      split; [discriminate | reflexivity].
    + split; [intros e' He'; congruence |].
      split; [intros e' _; left; reflexivity |].
      split; [discriminate | reflexivity].
    + split; [intros e' He'; congruence |].
      split.
      * intros e' [= <-]. right.
        split; [exact Hp |]. split; [exact Hne |]. split; [exact Hn |].
        exists n1. split; [exact T1 | reflexivity].
      * split; [discriminate |].
        intros key H1 _. rewrite lookup_insert_ne by congruence. reflexivity.
Qed.

(** X13: when the output path names the file that [skipped.tsv] names
    (it is [skipped.tsv], or another spelling of it), a successful run
    loses the dictionary: the diagnostic lines are written over it, and
    the file system ends as the initial one with [skipped.tsv] holding
    the lines of the skipped entries only. *)
Theorem output_named_skipped_tsv_is_lost (mozc_dir pattern dict_name output_file : str)
    (fs fs' : FS) (r : Stats * Z * str) :
  mozc_to_rime hira2kata kana2alphabet lower _k realpath glob_glob os_path_join today
    mozc_dir pattern dict_name output_file fs = (Ok r, fs') ->
  realpath output_file = realpath SKIPPED_TSV ->
  let files := Py.sorted (glob_glob fs (os_path_join mozc_dir pattern)) in
  let lines :=
    concat (map skipped_line
              (skipped_of_files hira2kata kana2alphabet lower _k realpath fs files)) in
  file_text realpath fs' output_file = Some lines /\
  exists n, node_text n = lines /\ fs' = <[realpath SKIPPED_TSV := n]> fs.
Proof.
  intros H Heq.
  apply mozc_to_rime_ok in H as (_ & _ & n1 & n2 & _ & T2 & _ & _ & ->).
  cbv zeta in *. rewrite Heq.
  split.
  - unfold file_text. rewrite Heq, lookup_insert_eq. simpl. rewrite T2. reflexivity.
  - exists n2. split; [exact T2 | apply insert_insert_eq].
Qed.

End WriteFacts.

Example sample_run_to_skipped_tsv :
  fst (mozc_to_rime no_kana no_kana ascii_lower None sample_realpath
      sample_glob posix_join
         sample_today sample_dir sample_pattern sample_name SKIPPED_TSV sample_fs)
  = Ok (mkStats 4 1 1 1, 1%Z, of_string "skipped.tsv").
Proof. vm_compute. reflexivity. Qed.

Lemma output_named_skipped_tsv_is_lost_witness :
  mozc_to_rime no_kana no_kana ascii_lower None sample_realpath sample_glob
    posix_join sample_today sample_dir sample_pattern sample_name SKIPPED_TSV
    sample_fs
  = (Ok (mkStats 4 1 1 1, 1%Z, of_string "skipped.tsv"),
     snd (mozc_to_rime no_kana no_kana ascii_lower None sample_realpath sample_glob
            posix_join sample_today sample_dir sample_pattern sample_name
            SKIPPED_TSV sample_fs)) /\
  file_text sample_realpath
    (snd (mozc_to_rime no_kana no_kana ascii_lower None sample_realpath sample_glob
            posix_join sample_today sample_dir sample_pattern sample_name
            SKIPPED_TSV sample_fs))
    SKIPPED_TSV
  = Some ([0x5B66] ++ [TAB] ++ [0x21] ++ [TAB] ++ REASON ++ [LF]).
Proof.
  assert (H : mozc_to_rime no_kana no_kana ascii_lower None sample_realpath
                sample_glob posix_join sample_today sample_dir sample_pattern
                sample_name SKIPPED_TSV sample_fs
              = (Ok (mkStats 4 1 1 1, 1%Z, of_string "skipped.tsv"),
                 snd (mozc_to_rime no_kana no_kana ascii_lower None sample_realpath
                        sample_glob posix_join sample_today sample_dir
                        sample_pattern sample_name SKIPPED_TSV sample_fs))).
  { etransitivity; [apply surjective_pairing |].
    rewrite sample_run_to_skipped_tsv. reflexivity. }
  split; [exact H |].
  destruct (output_named_skipped_tsv_is_lost _ _ _ _ _ _ _ _ _ _ _ _ _ _ _ H eq_refl)
    as [Hl _].
  rewrite Hl. vm_compute. reflexivity.
Defined.

(** ** The order of the files *)

Lemma str_le_antisym (a b : str) :
  Py.str_le a b = true -> Py.str_le b a = true -> a = b.
Proof.
  revert b. induction a as [| x a IH]; intros [| y b]; simpl; try congruence.
  intros H1 H2.
  apply orb_true_iff in H1 as [H1 | H1]; apply orb_true_iff in H2 as [H2 | H2];
    rewrite ?andb_true_iff, ?N.ltb_lt, ?N.eqb_eq in *; try lia.
  destruct H1 as [-> H1], H2 as [_ H2]. f_equal. apply IH; assumption.
Qed.

Lemma sorted_lists_unique (l1 l2 : list str) :
  StronglySorted (fun a b => Py.str_le a b = true) l1 ->
  StronglySorted (fun a b => Py.str_le a b = true) l2 ->
  Permutation l1 l2 -> l1 = l2.
Proof.
  intros H1. revert l2.
  induction H1 as [| x l1 Hs1 IH Hx]; intros l2 H2 Hp.
  - apply Permutation_nil in Hp. congruence.
  - destruct H2 as [| y l2 Hs2 Hy].
    + symmetry in Hp. apply Permutation_nil in Hp. discriminate.
    + assert (Exy : x = y).
      { assert (Hin1 : In x (y :: l2))
          by (eapply Permutation_in; [exact Hp | left; reflexivity]).
        assert (Hin2 : In y (x :: l1))
          by (eapply Permutation_in; [symmetry; exact Hp | left; reflexivity]).
        destruct Hin1 as [-> | Hin1]; [reflexivity |].
        destruct Hin2 as [-> | Hin2]; [reflexivity |].
        rewrite Forall_forall in Hx, Hy.
        apply str_le_antisym; [apply Hx | apply Hy]; apply list_elem_of_In;
          assumption. }
      subst y. f_equal. apply IH; [exact Hs2 |].
      eapply Permutation_cons_inv. exact Hp.
Qed.

Lemma sorted_of_permutation (l1 l2 : list str) :
  Permutation l1 l2 -> Py.sorted l1 = Py.sorted l2.
Proof.
  intros Hp. apply sorted_lists_unique; try apply sorted_ordered.
  rewrite !sorted_perm. exact Hp.
Qed.

(** X14: the run does not depend on the order in which the glob lists
    the matched paths: two listings that are permutations of each other
    give the same result and the same files, since the paths are sorted
    before they are read. *)
Theorem run_independent_of_glob_order (hira2kata kana2alphabet lower : str -> str)
    (_k : option kakasi) (realpath : str -> str)
    (glob1 glob2 : FS -> str -> list str)
    (os_path_join : str -> str -> str) (today : date)
    (mozc_dir pattern dict_name output_file : str) (fs : FS) :
  Permutation (glob1 fs (os_path_join mozc_dir pattern))
              (glob2 fs (os_path_join mozc_dir pattern)) ->
  mozc_to_rime hira2kata kana2alphabet lower _k realpath glob1 os_path_join today
    mozc_dir pattern dict_name output_file fs
  = mozc_to_rime hira2kata kana2alphabet lower _k realpath glob2 os_path_join today
      mozc_dir pattern dict_name output_file fs.
Proof.
  intros Hp. unfold mozc_to_rime, aggregate.
  rewrite (sorted_of_permutation _ _ Hp). reflexivity.
Qed.

Lemma run_independent_of_glob_order_witness :
  Permutation (sample_glob sample_fs (posix_join sample_dir sample_pattern))
              (sample_glob_rev sample_fs (posix_join sample_dir sample_pattern)) /\
  mozc_to_rime no_kana no_kana ascii_lower None sample_realpath
      sample_glob posix_join sample_today
    sample_dir sample_pattern sample_name sample_out sample_fs
  = mozc_to_rime no_kana no_kana ascii_lower None sample_realpath
      sample_glob_rev posix_join
      sample_today sample_dir sample_pattern sample_name sample_out sample_fs.
Proof.
  assert (H : Permutation
                (sample_glob sample_fs (posix_join sample_dir sample_pattern))
                (sample_glob_rev sample_fs (posix_join sample_dir sample_pattern))).
  { assert (E1 : sample_glob sample_fs (posix_join sample_dir sample_pattern)
                 = [of_string "d/b.txt"; of_string "d/a.txt"])
      by (vm_compute; reflexivity).
    assert (E2 : sample_glob_rev sample_fs (posix_join sample_dir sample_pattern)
                 = [of_string "d/a.txt"; of_string "d/b.txt"])
      by (vm_compute; reflexivity).
    rewrite E1, E2. apply perm_swap. }
  split; [exact H |].
  exact (run_independent_of_glob_order no_kana no_kana ascii_lower None
           sample_realpath sample_glob sample_glob_rev posix_join sample_today
           sample_dir sample_pattern sample_name sample_out sample_fs H).
Defined.

(** ** Lines of a text *)

Lemma translate_newlines_no_cr_aux (s : str) :
  Forall (fun c => c <> CR) (Py.translate_newlines s) /\
  forall c, Forall (fun c => c <> CR) (Py.translate_newlines (c :: s)).
Proof.
  induction s as [| c' s [IH1 IH2]].
  - split; [constructor |]. intros c. simpl.
    destruct (N.eqb_spec c CR); repeat constructor; [discriminate | assumption].
  - split; [apply IH2 |]. intros c.
    change (Py.translate_newlines (c :: c' :: s))
      with (if c =? CR
            then if c' =? LF then LF :: Py.translate_newlines s
                 else LF :: Py.translate_newlines (c' :: s)
            else c :: Py.translate_newlines (c' :: s)).
    destruct (N.eqb_spec c CR); [destruct (c' =? LF) |];
      constructor; try discriminate; auto.
Qed.

Lemma translate_newlines_no_cr (s : str) :
  Forall (fun c => c <> CR) (Py.translate_newlines s).
Proof. apply translate_newlines_no_cr_aux. Qed.

Lemma translate_newlines_id (s : str) :
  Forall (fun c => c <> CR) s -> Py.translate_newlines s = s.
Proof.
  induction 1 as [| c s Hc Hs IH]; [reflexivity |].
  simpl. apply N.eqb_neq in Hc. rewrite Hc, IH. reflexivity.
Qed.

Lemma iter_lines_shape (s : str) :
  Forall (fun c => c <> CR) s -> Forall line_shape (Py.iter_lines s).
Proof.
  induction 1 as [| c s Hc Hs IH]; simpl; [constructor |].
  destruct (N.eqb_spec c LF) as [-> | Hne].
  - constructor; [| exact IH]. exists []. split; [left; reflexivity | constructor].
  - destruct (Py.iter_lines s) as [| l ls].
    + constructor; [| constructor]. exists [c].
      split; [right; reflexivity |]. repeat constructor; assumption.
    + apply Forall_cons_1 in IH as [(body & Hl & Hb) Hls].
      constructor; [| exact Hls]. exists (c :: body). split.
      * destruct Hl as [-> | ->]; [left | right]; reflexivity.
      * constructor; [split; assumption | exact Hb].
Qed.

Lemma readlines_shape (text : str) : Forall line_shape (Py.readlines text).
Proof. apply iter_lines_shape, translate_newlines_no_cr. Qed.

(** A text made of bodies without newline, each followed by a newline,
    yields these lines. *)
Lemma iter_lines_body (body rest : str) :
  Forall (fun c => c <> LF) body ->
  Py.iter_lines (body ++ [LF] ++ rest) = (body ++ [LF]) :: Py.iter_lines rest.
Proof.
  induction 1 as [| c body Hc Hb IH]; simpl.
  - reflexivity.
  - apply N.eqb_neq in Hc. rewrite Hc. simpl in IH. rewrite IH. reflexivity.
Qed.

Lemma iter_lines_bodies (bodies : list str) :
  Forall (Forall (fun c => c <> LF)) bodies ->
  Py.iter_lines (concat (map add_lf bodies)) = map add_lf bodies.
Proof.
  induction 1 as [| b bodies Hb Hbs IH]; [reflexivity |].
  simpl. unfold add_lf at 1. rewrite <- app_assoc.
  rewrite (iter_lines_body b _ Hb), IH. reflexivity.
Qed.

Lemma readlines_bodies (bodies : list str) :
  Forall (Forall no_line_break) bodies ->
  Py.readlines (concat (map add_lf bodies)) = map add_lf bodies.
Proof.
  intros H. unfold Py.readlines.
  rewrite translate_newlines_id.
  - apply iter_lines_bodies. eapply Forall_impl; [exact H |].
    intros b Hb. eapply Forall_impl; [exact Hb |]. intros c [Hc _]. exact Hc.
  - induction H as [| b bodies Hb Hbs IH]; [constructor |].
    simpl. apply Forall_app. split; [| exact IH].
    unfold add_lf. apply Forall_app. split; [| repeat constructor; discriminate].
    eapply Forall_impl; [exact Hb |]. intros c [_ Hc]. exact Hc.
Qed.

(** ** Stripping and splitting a written line *)

Lemma rstrip_snoc_space (s : str) (c : N) :
  Py.isspace c = true -> Py.rstrip (s ++ [c]) = Py.rstrip s.
Proof.
  intros H. unfold Py.rstrip. rewrite rev_app_distr. simpl. rewrite H. reflexivity.
Qed.

Lemma rstrip_snoc_id (s : str) (c : N) :
  Py.isspace c = false -> Py.rstrip (s ++ [c]) = s ++ [c].
Proof.
  intros H. unfold Py.rstrip. rewrite rev_app_distr. simpl. rewrite H.
  simpl. rewrite rev_involutive. reflexivity.
Qed.

Lemma lstrip_snoc_space (s : str) (c : N) :
  Py.isspace c = true ->
  Py.lstrip (s ++ [c]) = match Py.lstrip s with [] => [] | _ => Py.lstrip s ++ [c] end.
Proof.
  intros H. induction s as [| x s IH]; simpl.
  - rewrite H. reflexivity.
  - destruct (Py.isspace x); [exact IH | reflexivity].
Qed.

Lemma strip_snoc_space (s : str) (c : N) :
  Py.isspace c = true -> Py.strip (s ++ [c]) = Py.strip s.
Proof.
  intros H. unfold Py.strip. rewrite (lstrip_snoc_space s c H).
  destruct (Py.lstrip s) as [| x t]; [reflexivity |].
  apply rstrip_snoc_space, H.
Qed.

Lemma line_shape_strip (line : str) :
  line_shape line -> Forall no_line_break (Py.strip line).
Proof.
  intros (body & [-> | ->] & Hb).
  - rewrite strip_snoc_space by reflexivity. apply strip_Forall, Hb.
  - apply strip_Forall, Hb.
Qed.

Lemma split_no_occurrence (sep : N) (s : str) :
  ~ In sep s -> Py.split sep s = [s].
Proof.
  induction s as [| c s IH]; intros H; [reflexivity |].
  simpl. destruct (N.eqb_spec c sep) as [-> | Hne]; [exfalso; apply H; left; reflexivity |].
  rewrite IH; [reflexivity |]. intros Hin. apply H. right. exact Hin.
Qed.

Lemma split_app_sep (sep : N) (a b : str) :
  ~ In sep a -> Py.split sep (a ++ sep :: b) = a :: Py.split sep b.
Proof.
  induction a as [| c a IH]; intros H; simpl.
  - rewrite N.eqb_refl. reflexivity.
  - destruct (N.eqb_spec c sep) as [-> | Hne];
      [exfalso; apply H; left; reflexivity |].
    rewrite IH; [reflexivity |]. intros Hin. apply H. right. exact Hin.
Qed.

Lemma key_no_tab (k : str) : Forall key_char k -> ~ In TAB k.
Proof.
  intros H Hin. rewrite Forall_forall in H.
  apply list_elem_of_In, H in Hin. unfold key_char, TAB in Hin. lia.
Qed.

(** A written entry line, stripped and split as the program does with
    the lines it reads, gives back the headword and the key. *)
Lemma entry_line_parses_back (e : str * str) :
  entry_ok e -> Py.split TAB (Py.strip (entry_line e)) = [fst e; snd e].
Proof.
  destruct e as [w k]. unfold entry_ok, entry_line. simpl.
  intros (Hj & Hs & Ht & Hk & Hkc).
  assert (Hstrip : Py.strip (w ++ TAB :: k ++ [LF]) = w ++ TAB :: k).
  { destruct w as [| c w']; [discriminate Hj |].
    pose proof (strip_head _ _ _ Hs) as Hc.
    unfold Py.strip. simpl app. rewrite (lstrip_id c _ Hc).
    change (c :: w' ++ TAB :: k ++ [LF]) with ((c :: w') ++ TAB :: k ++ [LF]).
    replace ((c :: w') ++ TAB :: k ++ [LF]) with (((c :: w') ++ TAB :: k) ++ [LF])
      by (rewrite <- app_assoc; reflexivity).
    rewrite rstrip_snoc_space by reflexivity.
    destruct (exists_last Hk) as (k' & x & ->).
    replace ((c :: w') ++ TAB :: k' ++ [x]) with (((c :: w') ++ TAB :: k') ++ [x])
      by (rewrite <- app_assoc; reflexivity).
    rewrite rstrip_snoc_id; [rewrite <- app_assoc; reflexivity |].
    apply key_char_not_space.
    rewrite Forall_app in Hkc. destruct Hkc as [_ Hx].
    apply Forall_inv in Hx. exact Hx. }
  rewrite Hstrip, (split_app_sep TAB w k Ht).
  rewrite (split_no_occurrence TAB k (key_no_tab k Hkc)). reflexivity.
Qed.

(** ** The written dictionary, read back *)

Lemma header_as_lines (dict_name today : str) :
  header dict_name today = concat (map add_lf (header_bodies dict_name today)).
Proof.
  unfold header, header_bodies, add_lf. cbn [map concat].
  rewrite <- !app_assoc. reflexivity.
Qed.

Lemma strftime_no_break (d : date) : Forall no_line_break (strftime_Ymd d).
Proof.
  unfold strftime_Ymd, pad4, pad2. simpl.
  repeat constructor; try discriminate;
    match goal with |- digit ?n <> _ => pose proof (digit_range n); unfold LF, CR; lia end.
Qed.

Lemma literal_no_break (s : str) :
  forallb (fun c => negb (c =? LF) && negb (c =? CR)) s = true ->
  Forall no_line_break s.
Proof.
  rewrite forallb_forall. intros H. apply Forall_forall. intros c Hc.
  apply list_elem_of_In, H in Hc.
  apply andb_true_iff in Hc as [H1 H2].
  apply negb_true_iff, N.eqb_neq in H1. apply negb_true_iff, N.eqb_neq in H2.
  split; assumption.
Qed.

Lemma header_bodies_no_break (dict_name : str) (d : date) :
  Forall no_line_break dict_name ->
  Forall (Forall no_line_break) (header_bodies dict_name (strftime_Ymd d)).
Proof.
  intros Hd. unfold header_bodies.
  repeat match goal with
         | |- Forall (Forall _) (_ :: _) => apply Forall_cons; split
         | |- Forall (Forall _) [] => constructor
         | |- Forall no_line_break (_ ++ _) => apply Forall_app; split
         | |- Forall no_line_break dict_name => exact Hd
         | |- Forall no_line_break (strftime_Ymd _) => apply strftime_no_break
         | |- Forall no_line_break _ => apply literal_no_break; reflexivity
         end.
Qed.

Section ReadBack.

Variable hira2kata : str -> str.
Variable kana2alphabet : str -> str.
Variable lower : str -> str.
Variable _k : option kakasi.
Variable realpath : str -> str.
Variable glob_glob : FS -> str -> list str.
Variable os_path_join : str -> str -> str.
Variable today : date.

Lemma entry_word_is_field (line : str) (e : str * str) :
  In e (entry_of_line hira2kata kana2alphabet lower _k line) ->
  exists f, In f (Py.split TAB (Py.strip line)) /\ fst e = Py.strip f.
Proof.
  unfold entry_of_line.
  destruct (classify_stage hira2kata kana2alphabet lower _k line)
    as [E | [E | (r0 & f & Hne & H0 & H4 & E)]]; rewrite E;
    try (simpl; intros H; contradiction).
  destruct (classify_record _ _ _ _ (Py.strip r0) (Py.strip f))
    as [| | e0 | | | w romaji] eqn:Ec; try (simpl; intros H; contradiction).
  apply classify_record_converted in Ec as (-> & _).
  intros [<- | []]. exists f. split; [eapply nth_error_In, H4 | reflexivity].
Qed.

Lemma entry_of_line_no_break (line : str) :
  line_shape line ->
  Forall (fun e : str * str => Forall no_line_break (fst e))
         (entry_of_line hira2kata kana2alphabet lower _k line).
Proof.
  intros HL. apply Forall_forall. intros e He.
  apply list_elem_of_In, entry_word_is_field in He as (f & Hf & ->).
  apply strip_Forall.
  pose proof (split_Forall _ TAB _ (line_shape_strip line HL)) as Hall.
  rewrite Forall_forall in Hall. apply Hall, list_elem_of_In, Hf.
Qed.

Lemma entries_of_files_wf (fs : FS) (files : list str) :
  Forall (fun e : str * str => entry_ok e /\ Forall no_line_break (fst e))
         (entries_of_files hira2kata kana2alphabet lower _k realpath fs files).
Proof.
  apply Forall_forall. intros e He. apply list_elem_of_In in He.
  unfold entries_of_files in He.
  apply in_flat_map in He as (fp & _ & He).
  apply in_flat_map in He as (line & Hline & He).
  split.
  - pose proof (entry_of_line_ok hira2kata kana2alphabet lower _k line) as H.
    rewrite Forall_forall in H. apply H, list_elem_of_In, He.
  - assert (HL : line_shape line).
    { unfold file_lines in Hline.
      destruct (open_read realpath fs fp) as [text |]; [| destruct Hline].
      pose proof (readlines_shape text) as H. rewrite Forall_forall in H.
      apply H, list_elem_of_In, Hline. }
    pose proof (entry_of_line_no_break line HL) as H.
    rewrite Forall_forall in H. apply H, list_elem_of_In, He.
Qed.

Lemma entry_body_no_break (e : str * str) :
  entry_ok e -> Forall no_line_break (fst e) ->
  Forall no_line_break (fst e ++ [TAB] ++ snd e).
Proof.
  intros (_ & _ & _ & _ & Hk) Hw.
  apply Forall_app. split; [exact Hw |].
  apply Forall_app. split; [repeat constructor; discriminate |].
  eapply Forall_impl; [exact Hk |].
  intros c Hc. unfold key_char in Hc. unfold no_line_break, LF, CR. lia.
Qed.

(** X15: after a successful run whose dictionary name has no line
    break and whose output path does not name the file that
    [skipped.tsv] names, the text of the output file, read line by line,
    is the eleven lines of the header followed by exactly one line per
    entry: no headword or key breaks a line. *)
Theorem output_file_lines (mozc_dir pattern dict_name output_file : str)
    (fs fs' : FS) (r : Stats * Z * str) :
  mozc_to_rime hira2kata kana2alphabet lower _k realpath glob_glob os_path_join today
    mozc_dir pattern dict_name output_file fs = (Ok r, fs') ->
  realpath output_file <> realpath SKIPPED_TSV ->
  Forall (fun c => c <> LF /\ c <> CR) dict_name ->
  let files := Py.sorted (glob_glob fs (os_path_join mozc_dir pattern)) in
  let entries := entries_of_files hira2kata kana2alphabet lower _k realpath fs files in
  exists text,
    file_text realpath fs' output_file = Some text /\
    Py.readlines text
    = map add_lf (header_bodies dict_name (strftime_Ymd today))
      ++ map entry_line entries /\
    length (Py.readlines text) = (11 + length entries)%nat.
Proof.
  intros Hrun Hne Hd. cbv zeta.
  apply mozc_to_rime_ok in Hrun. cbv zeta in Hrun.
  destruct Hrun as (_ & _ & n1 & n2 & T1 & _ & _ & _ & ->).
  set (entries := entries_of_files hira2kata kana2alphabet lower _k realpath fs _)
    in *.
  exists (header dict_name (strftime_Ymd today) ++ concat (map entry_line entries)).
  split.
  { unfold file_text. rewrite lookup_insert_ne by congruence.
    rewrite lookup_insert_eq. simpl. rewrite T1. reflexivity. }
  assert (Hlines : map entry_line entries
                   = map add_lf (map (fun e => fst e ++ [TAB] ++ snd e) entries)).
  { rewrite map_map. apply map_ext. intros e. unfold entry_line, add_lf.
    rewrite <- !app_assoc. reflexivity. }
  assert (Hread : Py.readlines (header dict_name (strftime_Ymd today)
                                ++ concat (map entry_line entries))
                  = map add_lf (header_bodies dict_name (strftime_Ymd today))
                    ++ map entry_line entries).
  { rewrite header_as_lines, Hlines, <- concat_app, <- map_app.
    apply readlines_bodies. apply Forall_app. split.
    - apply header_bodies_no_break, Hd.
    - apply Forall_forall. intros b Hb.
      apply list_elem_of_In, in_map_iff in Hb as (e & <- & He).
      pose proof (entries_of_files_wf fs
                    (Py.sorted (glob_glob fs (os_path_join mozc_dir pattern)))) as H.
      rewrite Forall_forall in H. apply list_elem_of_In, H in He as [Hok Hw].
      apply entry_body_no_break; assumption. }
  split; [exact Hread |].
  rewrite Hread, length_app, !length_map. reflexivity.
Qed.

(** X16: every line of an entry that a run writes, stripped and split
    on tabs as the program does with the lines it reads, gives back
    exactly two fields, the headword and the key. *)
Theorem entry_lines_parse_back (mozc_dir pattern : str) (fs : FS) :
  let files := Py.sorted (glob_glob fs (os_path_join mozc_dir pattern)) in
  Forall (fun e : str * str =>
            Py.split TAB (Py.strip (entry_line e)) = [fst e; snd e])
         (entries_of_files hira2kata kana2alphabet lower _k realpath fs files).
Proof.
  simpl. eapply Forall_impl; [apply entries_of_files_wf |].
  intros e [Hok _]. apply entry_line_parses_back, Hok.
Qed.

End ReadBack.

Lemma output_file_lines_witness :
  mozc_to_rime no_kana no_kana ascii_lower None sample_realpath sample_glob
    posix_join sample_today sample_dir sample_pattern sample_name sample_out sample_fs
  = (Ok (mkStats 4 1 1 1, 1%Z, of_string "skipped.tsv"),
     snd (mozc_to_rime no_kana no_kana ascii_lower None sample_realpath sample_glob
            posix_join sample_today sample_dir sample_pattern sample_name sample_out
            sample_fs)) /\
  sample_realpath sample_out <> sample_realpath SKIPPED_TSV /\
  Forall (fun c => c <> LF /\ c <> CR) sample_name /\
  exists text,
    file_text sample_realpath
      (snd (mozc_to_rime no_kana no_kana ascii_lower None sample_realpath sample_glob
              posix_join sample_today sample_dir sample_pattern sample_name
              sample_out sample_fs))
      sample_out = Some text /\
    length (Py.readlines text) = 12%nat.
Proof.
  assert (H1 : sample_realpath sample_out <> sample_realpath SKIPPED_TSV)
    by (vm_compute; discriminate).
  assert (H2 : Forall (fun c => c <> LF /\ c <> CR) sample_name)
    by (apply literal_no_break; reflexivity).
  split; [exact sample_run_ok |]. split; [exact H1 |]. split; [exact H2 |].
  destruct (output_file_lines no_kana no_kana ascii_lower None sample_realpath
              sample_glob posix_join sample_today _ _ _ _ _ _ _ sample_run_ok H1 H2)
    as (text & Ht & _ & Hlen).
  exists text. split; [exact Ht |].
  rewrite Hlen. vm_compute. reflexivity.
Defined.

(** ** The command line *)

Section MainFacts.

Variable hira2kata : str -> str.
Variable kana2alphabet : str -> str.
Variable lower : str -> str.
Variable _k : option kakasi.
Variable realpath : str -> str.
Variable glob_glob : FS -> str -> list str.
Variable os_path_join : str -> str -> str.
Variable today : date.

(** X17: [main] writes the dictionary to the path of [--out] when it
    is given and not empty, and to the dictionary name followed by
    [.dict.yaml] when it is absent or empty. When the run raises, [main]
    raises the same exception, has printed nothing and leaves the file
    system as the run left it, which is as it found it when the pass
    raised; when the run succeeds, [main] leaves the file system the
    run leaves. *)
Theorem main_runs_on_the_output_path (args : Args) (fs : FS) :
  let run := mozc_to_rime hira2kata kana2alphabet lower _k realpath glob_glob os_path_join
               today (args_mozc_dir args) (args_pattern args) (args_name args)
               (out_file_of args) fs in
  let m := main hira2kata kana2alphabet lower _k realpath glob_glob os_path_join today
             args fs in
  (args_out args = None \/ args_out args = Some [] ->
   out_file_of args = args_name args ++ of_string ".dict.yaml") /\
  (forall o : str, o <> [] -> args_out args = Some o -> out_file_of args = o) /\
  (forall e : exn, fst run = Raise e -> m = (Raise e, snd run, [])) /\
  (forall e : exn,
     fst (aggregate hira2kata kana2alphabet lower _k realpath glob_glob os_path_join
            (args_mozc_dir args) (args_pattern args) fs) = Raise e ->
     m = (Raise e, fs, [])) /\
  (forall r, fst run = Ok r -> fst m = (Ok tt, snd run) /\ snd m <> []).
Proof.
  cbv zeta. split; [| split; [| split; [| split]]].
  - unfold out_file_of. intros [-> | ->]; reflexivity.
  - unfold out_file_of. intros o Ho ->. apply truthy_true in Ho. rewrite Ho.
    reflexivity.
  - intros e He. unfold main.
    destruct (mozc_to_rime _ _ _ _ _ _ _ _ _ _ _ _ fs) as [[[[st tot] sf] | e'] fs'];
      simpl in *; [discriminate He |].
    congruence.
  - intros e He. unfold main, mozc_to_rime.
    destruct (aggregate _ _ _ _ _ _ _ _ _ fs) as [[[] | e'] w];
      simpl in *; [discriminate He |].
    congruence.
  - intros r Hr. unfold main.
    destruct (mozc_to_rime _ _ _ _ _ _ _ _ _ _ _ _ fs) as [[[[st tot] sf] | e'] fs'];
      simpl in *; [| discriminate Hr].
    split; [reflexivity | discriminate].
Qed.

(** X18: the summary a successful [main] prints, read off the input:
    seven lines, and an eighth, the hint, exactly when pykakasi is not
    available. They give the output path, the number of physical lines
    of the matched files, the number of entries (twice: as converted and
    as written, always the same number), the number of skipped entries
    with the name [skipped.tsv], and the number of lines whose headword
    has no kana or kanji. *)
Theorem main_summary (args : Args) (fs fs' : FS) (printed : list str) :
  main hira2kata kana2alphabet lower _k realpath glob_glob os_path_join today args fs
  = (Ok tt, fs', printed) ->
  let files :=
    Py.sorted (glob_glob fs (os_path_join (args_mozc_dir args) (args_pattern args))) in
  let lines := flat_map (file_lines realpath fs) files in
  let verdicts := map (classify hira2kata kana2alphabet lower _k) lines in
  let n := count_verdicts is_converted verdicts in
  printed
  = [ MSG_DONE;
      MSG_OUTPUT ++ of_string " " ++ out_file_of args;
      MSG_LINES ++ str_of_int (Z.of_nat (length lines));
      MSG_CONVERTED ++ str_of_int n ++ MSG_ENTRIES;
      MSG_TOTAL ++ str_of_int n;
      MSG_SKIPPED ++ str_of_int (count_verdicts is_skipped verdicts)
        ++ MSG_WRITTEN ++ of_string "skipped.tsv";
      MSG_FILTERED ++ str_of_int (count_verdicts is_filtered verdicts) ]
    ++ (if HAS_PYKAKASI _k then [] else [MSG_HINT]).
Proof.
  unfold main.
  destruct (mozc_to_rime hira2kata kana2alphabet lower _k
      realpath glob_glob os_path_join today
              (args_mozc_dir args) (args_pattern args) (args_name args)
              (out_file_of args) fs) as [[[[st tot] sf] | e] fs1] eqn:Hrun;
    [| discriminate].
  intros [= <- <-]. cbv zeta.
  pose proof (run_counts _ _ _ _ _ _ _ _ _ _ _ _ _ _ _ Hrun) as Hc.
  cbv zeta in Hc. simpl fst in Hc. destruct Hc as (Hp & Hcv & Hsk & Hf & _).
  pose proof (run_total_is_converted _ _ _ _ _ _ _ _ _ _ _ _ _ _ _ Hrun) as Ht.
  simpl in Ht.
  pose proof (mozc_to_rime_ok _ _ _ _ _ _ _ _ _ _ _ _ _ _ _ Hrun) as Hok.
  cbv zeta in Hok. destruct Hok as (_ & Hsf & _). simpl in Hsf.
  rewrite Ht, Hp, Hcv, Hsk, Hf, Hsf.
  destruct (HAS_PYKAKASI _k); reflexivity.
Qed.

End MainFacts.

Lemma main_summary_witness :
  fst (main no_kana no_kana ascii_lower None sample_realpath
      sample_glob posix_join sample_today
         sample_args sample_fs)
  = (Ok tt,
     snd (mozc_to_rime no_kana no_kana ascii_lower None sample_realpath
         sample_glob posix_join
            sample_today sample_dir sample_pattern sample_name sample_out sample_fs)) /\
  length (snd (main no_kana no_kana ascii_lower None sample_realpath
      sample_glob posix_join
                 sample_today sample_args sample_fs)) = 8%nat /\
  nth_error (snd (main no_kana no_kana ascii_lower None sample_realpath
      sample_glob posix_join
                    sample_today sample_args sample_fs)) 2
  = Some (MSG_LINES ++ of_string "4").
Proof.
  assert (Hf : fst (main no_kana no_kana ascii_lower None sample_realpath
      sample_glob posix_join
                      sample_today sample_args sample_fs)
               = (Ok tt,
                  snd (mozc_to_rime no_kana no_kana ascii_lower None sample_realpath
                      sample_glob
                         posix_join sample_today sample_dir sample_pattern
                         sample_name sample_out sample_fs))).
  { unfold main. change (out_file_of sample_args) with sample_out. simpl args_name.
    simpl args_mozc_dir. simpl args_pattern. rewrite sample_run_ok. reflexivity. }
  assert (H : main no_kana no_kana ascii_lower None sample_realpath sample_glob posix_join
                sample_today sample_args sample_fs
              = (Ok tt,
                 snd (mozc_to_rime no_kana no_kana ascii_lower None sample_realpath
                     sample_glob
                        posix_join sample_today sample_dir sample_pattern
                        sample_name sample_out sample_fs),
                 snd (main no_kana no_kana ascii_lower None sample_realpath
                     sample_glob posix_join
                        sample_today sample_args sample_fs))).
  { rewrite <- Hf. apply surjective_pairing. }
  split; [exact Hf |].
  rewrite (main_summary no_kana no_kana ascii_lower None sample_realpath
      sample_glob posix_join
             sample_today sample_args sample_fs _ _ H).
  split; vm_compute; reflexivity.
Defined.

(** ** A record whose last field is empty *)

Lemma lstrip_app_spaces (l t : str) :
  Forall (fun c => Py.isspace c = true) l -> Py.lstrip (l ++ t) = Py.lstrip t.
Proof.
  induction 1 as [| c l Hc Hl IH]; [reflexivity |].
  simpl. rewrite Hc. exact IH.
Qed.

Lemma rstrip_app_spaces (s ws : str) :
  Forall (fun c => Py.isspace c = true) ws -> Py.rstrip (s ++ ws) = Py.rstrip s.
Proof.
  intros H. unfold Py.rstrip. rewrite rev_app_distr.
  rewrite lstrip_app_spaces by (apply Forall_rev, H). reflexivity.
Qed.

(** Equal up to the nesting of [++] and [::]. *)
Ltac normalize_apps :=
  repeat first [rewrite <- app_assoc | rewrite <- app_comm_cons]; simpl;
  repeat first [rewrite <- app_assoc | rewrite <- app_comm_cons]; reflexivity.

(** X19: a record of five fields whose fifth field, the headword, is
    empty or blank and ends the line is not passed over: [line.strip()]
    removes the final tab with the newline, four fields are left, and
    the loop body raises [IndexError] after counting the line. *)
Theorem blank_last_headword_raises (hira2kata kana2alphabet lower : str -> str)
    (_k : option kakasi) (r0 x : N) (r' a b c' ws : str) (w : World) :
  Py.isspace r0 = false -> r0 <> HASH -> Py.isspace x = false ->
  ~ In TAB (r0 :: r') -> ~ In TAB a -> ~ In TAB b -> ~ In TAB (c' ++ [x]) ->
  Forall (fun c => Py.isspace c = true) ws ->
  process_line hira2kata kana2alphabet lower _k
    ((r0 :: r') ++ [TAB] ++ a ++ [TAB] ++ b ++ [TAB] ++ (c' ++ [x]) ++ [TAB] ++ ws) w
  = (Raise IndexError, push incr_processed_lines w).
Proof.
  intros Hr0 Hh Hx Tr Ta Tb Tc Hws.
  assert (Hstrip :
            Py.strip ((r0 :: r') ++ [TAB] ++ a ++ [TAB] ++ b ++ [TAB]
                      ++ (c' ++ [x]) ++ [TAB] ++ ws)
            = (r0 :: r') ++ TAB :: a ++ TAB :: b ++ TAB :: c' ++ [x]).
  { unfold Py.strip.
    change ((r0 :: r') ++ [TAB] ++ a ++ [TAB] ++ b ++ [TAB]
            ++ (c' ++ [x]) ++ [TAB] ++ ws)
      with (r0 :: (r' ++ [TAB] ++ a ++ [TAB] ++ b ++ [TAB]
                   ++ (c' ++ [x]) ++ [TAB] ++ ws)).
    rewrite (lstrip_id r0 _ Hr0).
    replace (r0 :: (r' ++ [TAB] ++ a ++ [TAB] ++ b ++ [TAB]
                    ++ (c' ++ [x]) ++ [TAB] ++ ws))
      with ((((r0 :: r') ++ TAB :: a ++ TAB :: b ++ TAB :: c') ++ [x])
            ++ ([TAB] ++ ws))
      by normalize_apps.
    rewrite rstrip_app_spaces by (constructor; [reflexivity | exact Hws]).
    rewrite (rstrip_snoc_id _ x Hx).
    normalize_apps. }
  assert (Hsplit :
            Py.split TAB ((r0 :: r') ++ TAB :: a ++ TAB :: b ++ TAB :: c' ++ [x])
            = [r0 :: r'; a; b; c' ++ [x]]).
  { rewrite (split_app_sep TAB _ _ Tr), (split_app_sep TAB _ _ Ta),
      (split_app_sep TAB _ _ Tb), (split_no_occurrence TAB _ Tc). reflexivity. }
  apply short_line_raises; rewrite Hstrip.
  - simpl. apply N.eqb_neq in Hh. rewrite Hh. reflexivity.
  - rewrite Hsplit. simpl. lia.
Qed.

Lemma blank_last_headword_raises_witness :
  process_line no_kana no_kana ascii_lower None empty_headword_line init_world
  = (Raise IndexError, push incr_processed_lines init_world).
Proof.
  apply (blank_last_headword_raises no_kana no_kana ascii_lower None
           97 48 [] (of_string "1") (of_string "1") (of_string "10") [LF] init_world).
  - reflexivity.
  - discriminate.
  - reflexivity.
  - vm_compute. intros [H | []]. discriminate H.
  - vm_compute. intros [H | []]. discriminate H.
  - vm_compute. intros [H | []]. discriminate H.
  - vm_compute. intros [H | [H | [H | []]]]; discriminate H.
  - constructor; [reflexivity | constructor].
Defined.
